(** * Ticket prioritisation front end: priority display, banding and the
      override form

    A shallow embedding of the React components of the ticket queue
    (OverrideForm, PriorityBadge, PriorityBreakdown, UrgencyIndicator,
    TicketCard, TicketDetailModal) together with the JavaScript built-ins
    they call, and of the scoring engine the components display.

    Conventions of the embedding.
    - A JavaScript number is a [number]: NaN, the two infinities, or a finite
      value carried as an exact rational.  Every finite double is a rational
      and the comparisons of the language agree with the comparisons of the
      rationals, so every threshold test below is exact; products and
      quotients are exact too, that is, binary64 rounding and the sign of
      zero are not modelled.
    - A JavaScript string is a [string]; text that is measured, trimmed or
      upper-cased is taken to be ASCII, one character per code unit, and the
      emoji of the fixed labels stand as their UTF-8 bytes.
    - A rendered React element is a [vnode]; [cond && element] contributes
      the element or nothing to the children of its parent. *)

From Stdlib Require Import QArith Qabs Qround ZArith String Ascii List Lia Lqa.
From stdpp Require Import gmap strings list.

Local Open Scope string_scope.
Local Open Scope list_scope.

(** ** JavaScript numbers *)

Module Js.

Inductive number : Type :=
| NaN
| PosInf
| NegInf
| Fin (q : Q).

Definition of_Z (z : Z) : number := Fin (inject_Z z).

(** Three-way comparison; [None] when an operand is NaN, in which case every
    relational operator of the language answers false. *)
Definition compare (a b : number) : option comparison :=
  match a, b with
  | NaN, _ | _, NaN => None
  | PosInf, PosInf => Some Eq
  | NegInf, NegInf => Some Eq
  | PosInf, _ => Some Gt
  | _, PosInf => Some Lt
  | NegInf, _ => Some Lt
  | _, NegInf => Some Gt
  | Fin p, Fin q => Some (Qcompare p q)
  end.

(** [a < b] *)
Definition lt (a b : number) : bool :=
  match compare a b with Some Lt => true | _ => false end.

(** [a > b] *)
Definition gt (a b : number) : bool :=
  match compare a b with Some Gt => true | _ => false end.

(** [a <= b] *)
Definition le (a b : number) : bool :=
  match compare a b with Some Lt | Some Eq => true | _ => false end.

(** [a >= b] *)
Definition ge (a b : number) : bool :=
  match compare a b with Some Gt | Some Eq => true | _ => false end.

(** [isNaN(a)] on a value that already is a number. *)
Definition isNaN (a : number) : bool :=
  match a with NaN => true | _ => false end.

(** ToBoolean on a number: NaN and zero are falsy. *)
Definition truthy (a : number) : bool :=
  match a with
  | NaN => false
  | Fin q => negb (Qeq_bool q 0)
  | _ => true
  end.

(** [a || b] on numbers. *)
Definition or_else (a b : number) : number := if truthy a then a else b.

Definition sign_inf (negative : bool) : number :=
  if negative then NegInf else PosInf.

Definition is_neg (a : number) : bool := lt a (Fin 0).

(** [a * b] *)
Definition mul (a b : number) : number :=
  match a, b with
  | NaN, _ | _, NaN => NaN
  | Fin p, Fin q => Fin (p * q)
  | Fin p, _ => if Qeq_bool p 0 then NaN else sign_inf (xorb (is_neg a) (is_neg b))
  | _, Fin q => if Qeq_bool q 0 then NaN else sign_inf (xorb (is_neg a) (is_neg b))
  | _, _ => sign_inf (xorb (is_neg a) (is_neg b))
  end.

(** [a / b] *)
Definition div (a b : number) : number :=
  match a, b with
  | NaN, _ | _, NaN => NaN
  | Fin p, Fin q =>
      if Qeq_bool q 0
      then (if Qeq_bool p 0 then NaN else sign_inf (is_neg a))
      else Fin (p / q)
  | Fin _, _ => Fin 0
  | _, Fin _ => sign_inf (xorb (is_neg a) (is_neg b))
  | _, _ => NaN
  end.

(** [Math.round(a)]: the nearest integer, ties towards plus infinity. *)
Definition round (a : number) : number :=
  match a with
  | Fin q => of_Z (Qfloor (q + (1 # 2)))
  | _ => a
  end.

End Js.

(** ** JavaScript strings *)

Module Str.

(** White space and line terminators, as far as ASCII has them. *)
Definition is_space (c : ascii) : bool :=
  let n := nat_of_ascii c in
  ((9 <=? n) && (n <=? 13))%nat || (n =? 32)%nat.

Fixpoint trimStart (s : string) : string :=
  match s with
  | String c r => if is_space c then trimStart r else s
  | EmptyString => EmptyString
  end.

(** Drops the trailing white space: a character is kept when it is not white
    space or when something is kept after it. *)
Fixpoint trimEnd (s : string) : string :=
  match s with
  | EmptyString => EmptyString
  | String c r =>
      match trimEnd r with
      | EmptyString => if is_space c then EmptyString else String c EmptyString
      | r' => String c r'
      end
  end.

(** [s.trim()] *)
Definition trim (s : string) : string := trimEnd (trimStart s).

Definition upper_char (c : ascii) : ascii :=
  let n := nat_of_ascii c in
  if ((97 <=? n) && (n <=? 122))%nat then ascii_of_nat (n - 32) else c.

(** [s.toUpperCase()] *)
Fixpoint toUpperCase (s : string) : string :=
  match s with
  | EmptyString => EmptyString
  | String c r => String (upper_char c) (toUpperCase r)
  end.

(** The double quote character. *)
Definition quote : string := String (ascii_of_nat 34) EmptyString.

(** ToBoolean on a string: only the empty string is falsy. *)
Definition truthy (s : string) : bool :=
  match s with EmptyString => false | _ => true end.

Definition digit_of (c : ascii) : option Z :=
  let n := nat_of_ascii c in
  if ((48 <=? n) && (n <=? 57))%nat then Some (Z.of_nat (n - 48)) else None.

(** Reads the longest run of decimal digits at the head of [s]: the value of
    the run when read after the digits already accumulated in [acc], the
    number of digits read, and the rest of the string. *)
Fixpoint digits (acc : Z) (count : nat) (s : string) : Z * nat * string :=
  match s with
  | String c r =>
      match digit_of c with
      | Some d => digits (10 * acc + d) (S count) r
      | None => (acc, count, s)
      end
  | EmptyString => (acc, count, s)
  end.

(** Decimal digits of a natural number, most significant first; [fuel]
    bounds the number of digits. *)
Fixpoint digits_of_nat (fuel : nat) (n : N) (acc : string) : string :=
  let acc' := String (ascii_of_N (48 + n mod 10)) acc in
  match fuel with
  | O => acc'
  | S fuel' =>
      if (n / 10 =? 0)%N then acc' else digits_of_nat fuel' (n / 10)%N acc'
  end.

Definition of_N (n : N) : string := digits_of_nat (N.to_nat (N.log2 n)) n "".

Fixpoint repeat0 (k : nat) : string :=
  match k with O => "" | S k' => String "0" (repeat0 k') end.

(** The last [k] characters of [s] and what precedes them. *)
Definition split_last (k : nat) (s : string) : string * string :=
  let n := String.length s in
  (substring 0 (n - k) s, substring (n - k) k s).

End Str.

(** ** Built-ins that go between strings and numbers *)

Module Builtin.
Import Js.

(** [m * 10^k] as a rational. *)
Definition scale10 (m k : Z) : Q :=
  if (0 <=? k)%Z then inject_Z (m * 10 ^ k) else m # Z.to_pos (10 ^ (- k)).

(** The exponent part [e], [e+] or [e-] followed by at least one digit;
    [None] when the string does not start with a complete exponent part. *)
Definition exponent (s : string) : option Z :=
  match s with
  | String c r =>
      if (Ascii.eqb c "e" || Ascii.eqb c "E")%bool then
        let '(neg, r') :=
          match r with
          | String "-" t => (true, t)
          | String "+" t => (false, t)
          | _ => (false, r)
          end in
        let '(e, n, _) := Str.digits 0 0 r' in
        if (n =? 0)%nat then None else Some (if neg then (- e)%Z else e)
      else None
  | EmptyString => None
  end.

(** [parseFloat(s)]: leading white space is skipped, then the longest prefix
    that is a decimal literal (sign, digits, fraction, exponent) or a signed
    [Infinity] is read; NaN when there is no such prefix. *)
Definition parseFloat (s : string) : number :=
  let s0 := Str.trimStart s in
  let '(neg, s1) :=
    match s0 with
    | String "-" r => (true, r)
    | String "+" r => (false, r)
    | _ => (false, s0)
    end in
  if String.prefix "Infinity" s1 then sign_inf neg
  else
    let '(ip, ni, r1) := Str.digits 0 0 s1 in
    let '(m, nf, r2) :=
      match r1 with
      | String "." r => Str.digits ip 0 r
      | _ => (ip, O, r1)
      end in
    if ((ni =? 0) && (nf =? 0))%nat then NaN
    else
      let e := match exponent r2 with Some e => e | None => 0%Z end in
      let q := scale10 m (e - Z.of_nat nf) in
      Fin (if neg then - q else q).

(** The digits of [x.toFixed(d)] for a finite [x]: the integer nearest to
    [|x| * 10^d] (the larger one on a tie), written with at least [d + 1]
    digits, a point before the last [d] of them, and a minus sign when
    [x < 0].  (At 1e21 and above the language switches to exponent notation;
    no value displayed by the components is in that range.) *)
Definition toFixed_fin (d : nat) (q : Q) : string :=
  let n := Qfloor (Qabs q * inject_Z (10 ^ Z.of_nat d) + (1 # 2)) in
  let ds := Str.of_N (Z.to_N n) in
  let ds := Str.repeat0 (S d - String.length ds) +:+ ds in
  let body :=
    match d with
    | O => ds
    | _ => let '(a, b) := Str.split_last d ds in a +:+ "." +:+ b
    end in
  (if lt (Fin q) (Fin 0) then "-" else "") +:+ body.

(** [x.toFixed(d)] *)
Definition toFixed (d : nat) (x : number) : string :=
  match x with
  | NaN => "NaN"
  | PosInf => "Infinity"
  | NegInf => "-Infinity"
  | Fin q => toFixed_fin d q
  end.

(** The text React renders for the number [Math.round(x)]. *)
Definition show_round (x : number) : string := toFixed 0 (round x).

End Builtin.

(** ** Objects used as lookup tables *)

Module Obj.

(** What [table[key]] finds on an object literal: an own property, a member
    inherited from [Object.prototype] (a function or object, hence truthy,
    with none of the fields of the table's entries), or nothing
    ([undefined]). *)
Inductive property (A : Type) : Type :=
| Own (a : A)
| Inherited
| Absent.
Arguments Own {A} a.
Arguments Inherited {A}.
Arguments Absent {A}.

Definition Object_prototype_keys : list string :=
  [ "constructor"; "__proto__"; "hasOwnProperty"; "isPrototypeOf";
    "propertyIsEnumerable"; "toLocaleString"; "toString"; "valueOf";
    "__defineGetter__"; "__defineSetter__"; "__lookupGetter__";
    "__lookupSetter__" ].

Definition get {A : Type} (table : gmap string A) (key : string) : property A :=
  match table !! key with
  | Some a => Own a
  | None =>
      if bool_decide (key ∈ Object_prototype_keys) then Inherited else Absent
  end.

(** [Object.keys(table).length === 0] *)
Definition no_keys {A : Type} (table : gmap string A) : bool :=
  Nat.eqb (size table) 0.

End Obj.

(** ** Rendered elements *)

Module View.

#[warnings="-register-all"]
Inductive vnode : Type :=
| Text (s : string)
| Elem (tag className : string) (children : list vnode).

(** [cond && element] among the children of an element. *)
Definition when (cond : bool) (n : vnode) : list vnode :=
  if cond then [n] else [].

(** A component that returned [null] renders nothing. *)
Definition child (n : option vnode) : list vnode :=
  match n with Some v => [v] | None => [] end.

(** The text leaves below a node, in document order. *)
Fixpoint texts (n : vnode) : list string :=
  match n with
  | Text s => [s]
  | Elem _ _ kids => flat_map texts kids
  end.

(** The class names of the elements below (and including) a node. *)
Fixpoint classes (n : vnode) : list string :=
  match n with
  | Text _ => []
  | Elem _ c kids => c :: flat_map classes kids
  end.

End View.

(** ** The ticket record received from the API *)

Module Model.
Import Js.

Record PriorityBreakdownData : Type := {
  effective_urgency : number;
  sla_risk : number;
  customer_tier_weight : number;
  final_score : number;
  urgency_contribution : number;
  sla_contribution : number;
  tier_contribution : number
}.

(** [llm_signals]; a field that is [null] or missing is [None]. *)
Record LlmSignals : Type := {
  urgency : option string;
  confidence : option number;
  sentiment : option string;
  sentiment_intensity : option number;
  summary : option string;
  error : option string
}.

Record Ticket : Type := {
  ticket_id : string;
  text : string;
  customer_tier : string;
  sla_hours_remaining : number;
  created_at : string;
  priority_score : number;
  priority_band : string;
  priority_breakdown : option PriorityBreakdownData;
  llm_signals : option LlmSignals;
  manual_override : bool;
  override_priority : option number;
  override_reason : option string;
  override_by : option string;
  override_at : option string;
  effective_priority : number;
  status : string
}.

(** The override state of a ticket: the flag, the four override fields and
    the effective priority that follows them. *)
Record OverrideState : Type := {
  os_manual_override : bool;
  os_override_priority : option number;
  os_override_reason : option string;
  os_override_by : option string;
  os_override_at : option string;
  os_effective_priority : number
}.

(** The ticket with its override state replaced and every other field
    kept. *)
Definition set_override (t : Ticket) (o : OverrideState) : Ticket :=
  {| ticket_id := ticket_id t;
     text := text t;
     customer_tier := customer_tier t;
     sla_hours_remaining := sla_hours_remaining t;
     created_at := created_at t;
     priority_score := priority_score t;
     priority_band := priority_band t;
     priority_breakdown := priority_breakdown t;
     llm_signals := llm_signals t;
     manual_override := os_manual_override o;
     override_priority := os_override_priority o;
     override_reason := os_override_reason o;
     override_by := os_override_by o;
     override_at := os_override_at o;
     effective_priority := os_effective_priority o;
     status := status t |}.

(** A run-time value handed to a component as a prop. *)
Inductive value : Type :=
| Undefined
| Null
| Bool (b : bool)
| Number (n : number)
| String_ (s : string).

(** ToBoolean on an optional string field. *)
Definition truthy_field (f : option string) : bool :=
  match f with Some s => Str.truthy s | None => false end.

End Model.

(** ** UrgencyIndicator, SentimentIndicator, PriorityBadge *)

Module Components.
Import Js Builtin View Model.

Record UrgencyDisplay : Type := {
  ud_text : string;
  ud_color : string;
  ud_bg : string;
  ud_icon : string
}.

(** [getUrgencyDisplay]: the [switch] over the urgency level. *)
Definition getUrgencyDisplay (urgency : string) : option UrgencyDisplay :=
  if String.eqb urgency "critical" then
    Some {| ud_text := "Critical"; ud_color := "text-red-700";
            ud_bg := "bg-red-100"; ud_icon := "🔴" |}
  else if String.eqb urgency "high" then
    Some {| ud_text := "High"; ud_color := "text-orange-700";
            ud_bg := "bg-orange-100"; ud_icon := "🟠" |}
  else if String.eqb urgency "medium" then
    Some {| ud_text := "Medium"; ud_color := "text-yellow-700";
            ud_bg := "bg-yellow-100"; ud_icon := "🟡" |}
  else if String.eqb urgency "low" then
    Some {| ud_text := "Low"; ud_color := "text-green-700";
            ud_bg := "bg-green-100"; ud_icon := "🟢" |}
  else None.

Definition unavailable_message : string := "AI analysis unavailable".

(** [UrgencyIndicator({ urgency, confidence })] *)
Definition UrgencyIndicator
    (urgency : option string) (confidence : option number) : option vnode :=
  match urgency with
  | None | Some "" =>
      Some (Elem "span" "text-xs text-gray-500 italic" [Text unavailable_message])
  | Some level =>
      match getUrgencyDisplay level with
      | None => None
      | Some display =>
          Some (Elem "div" "inline-flex items-center gap-2"
            ([ Elem "div"
                 ("flex items-center gap-1.5 px-2.5 py-1 rounded-md "
                    +:+ ud_bg display)
                 [ Elem "span" "" [Text (ud_icon display)];
                   Elem "span" ("text-xs font-semibold " +:+ ud_color display)
                     [Text (ud_text display)] ] ]
             ++ match confidence with
                | Some c =>
                    [ Elem "span" "text-xs text-gray-500"
                        [ Text "("; Text (show_round (mul c (of_Z 100)));
                          Text "% confident)" ] ]
                | None => []
                end))
      end
  end.

(** [SentimentIndicator]: disabled, returns [null]. *)
Definition SentimentIndicator
    (sentiment : option string) (intensity : option number) : option vnode :=
  None.

Inductive Size : Type := sm | md | lg.

Definition sizeClasses (size : Size) : string :=
  match size with
  | sm => "px-2 py-0.5 text-xs"
  | md => "px-3 py-1 text-sm"
  | lg => "px-4 py-1.5 text-base"
  end.

Definition default_badge_class : string :=
  "bg-gray-100 text-gray-800 border border-gray-200".

(** [getBadgeClass] *)
Definition getBadgeClass (priorityBand : string) : string :=
  if String.eqb priorityBand "P0" then "badge-p0"
  else if String.eqb priorityBand "P1" then "badge-p1"
  else if String.eqb priorityBand "P2" then "badge-p2"
  else if String.eqb priorityBand "P3" then "badge-p3"
  else default_badge_class.

(** [displayScore]: the percentage when [score] is a number other than NaN,
    the text [0] otherwise. *)
Definition displayScore (score : value) : string :=
  match score with
  | Number n => if negb (isNaN n) then toFixed 0 (mul n (of_Z 100)) else "0"
  | _ => "0"
  end.

(** [PriorityBadge({ priorityBand, score, size })] *)
Definition PriorityBadge (priorityBand : string) (score : value) (size : Size) : vnode :=
  Elem "span"
    ("inline-flex items-center gap-2 rounded-full font-semibold "
       +:+ getBadgeClass priorityBand +:+ " " +:+ sizeClasses size)
    [ Elem "span" "" [Text priorityBand];
      Elem "span" "opacity-75" [Text "("; Text (displayScore score); Text "%)"] ].

(** *** TicketCard *)

Record TierInfo : Type := { label : string; color : string }.

Definition tierMapping : gmap string TierInfo :=
  <["enterprise" := {| label := "TIER-1";
                       color := "bg-purple-100 text-purple-800 border-purple-200" |}]>
  (<["business" := {| label := "TIER-2";
                      color := "bg-blue-100 text-blue-800 border-blue-200" |}]>
  (<["standard" := {| label := "TIER-3";
                      color := "bg-gray-100 text-gray-800 border-gray-200" |}]>
  (<["free" := {| label := "TIER-4";
                  color := "bg-slate-100 text-slate-800 border-slate-200" |}]> ∅))).

(** [tierMapping.standard] *)
Definition standard_tier : TierInfo :=
  {| label := "TIER-3"; color := "bg-gray-100 text-gray-800 border-gray-200" |}.

(** [tierMapping[ticket.customer_tier] || tierMapping.standard]: an entry of
    the table, or [None] for a member inherited from [Object.prototype],
    which is truthy and has neither [label] nor [color]. *)
Definition lookup_tier (customer_tier : string) : option TierInfo :=
  match Obj.get tierMapping customer_tier with
  | Obj.Own info => Some info
  | Obj.Inherited => None
  | Obj.Absent => Some standard_tier
  end.

(** [getCustomerTierBadge]; an undefined [color] is spliced into the class
    name as the text [undefined], an undefined [label] renders nothing. *)
Definition getCustomerTierBadge (ticket : Ticket) : vnode :=
  let tier := lookup_tier (customer_tier ticket) in
  Elem "span"
    ("px-2 py-0.5 text-xs font-medium rounded border "
       +:+ match tier with Some info => color info | None => "undefined" end)
    match tier with Some info => [Text (label info)] | None => [] end.

Definition sla_warning_class : string := "flex items-center gap-1.5 text-red-600".

(** [getSLAWarning]; the path data of the warning icon is left out. *)
Definition getSLAWarning (ticket : Ticket) : vnode :=
  if lt (sla_hours_remaining ticket) (of_Z 4) then
    Elem "div" sla_warning_class
      [ Elem "svg" "w-4 h-4" [];
        Elem "span" "text-xs font-semibold"
          [ Text "SLA: "; Text (toFixed 1 (sla_hours_remaining ticket));
            Text "h remaining" ] ]
  else
    Elem "span" "text-xs text-gray-500"
      [ Text "SLA: "; Text (toFixed 1 (sla_hours_remaining ticket)); Text "h" ].

Definition override_marker : vnode :=
  Elem "span"
    "px-2 py-0.5 text-xs font-medium bg-purple-100 text-purple-800 rounded border border-purple-200"
    [Text "MANUAL OVERRIDE"].

(** The badge of the card: [priorityBand={ticket.priority_band}] and
    [score={ticket.priority_score || 0}]. *)
Definition card_badge (ticket : Ticket) : vnode :=
  PriorityBadge (priority_band ticket)
    (Number (or_else (priority_score ticket) (of_Z 0))) md.

(** The badge and, under [ticket.manual_override], the override marker. *)
Definition card_badge_row (ticket : Ticket) : list vnode :=
  card_badge ticket :: when (manual_override ticket) override_marker.

(** The header row of the card. *)
Definition card_header (ticket : Ticket) : vnode :=
  Elem "div"
    "flex flex-col sm:flex-row sm:items-start justify-between gap-2 sm:gap-3 mb-3"
    [ Elem "div" "flex items-center gap-3" (card_badge_row ticket);
      Elem "span" "text-xs text-gray-500" [Text (ticket_id ticket)] ].

(** [ticket.llm_signals && !ticket.llm_signals.error] *)
Definition shows_ai_block (signals : option LlmSignals) : bool :=
  match signals with
  | Some sig => negb (truthy_field (error sig))
  | None => false
  end.

(** The "AI Analysis" block of the card, rendered under [shows_ai_block]. *)
Definition card_ai_block (sig : LlmSignals) : vnode :=
  Elem "div" "mb-3 p-3 bg-blue-50 rounded-lg border border-blue-100"
    ([ Elem "div" "flex items-center gap-2 mb-2"
         [Elem "span" "text-xs font-semibold text-blue-900" [Text "🤖 AI Analysis"]] ]
     ++ when (truthy_field (summary sig))
          (Elem "p" "text-sm text-gray-700 mb-2 italic"
             [Text Str.quote; Text (default "" (summary sig)); Text Str.quote])
     ++ [ Elem "div" "flex flex-wrap items-center gap-3"
            (child (UrgencyIndicator (urgency sig) (confidence sig))
             ++ child (SentimentIndicator (sentiment sig) (sentiment_intensity sig))) ]).

Definition card_ai_signals (ticket : Ticket) : list vnode :=
  match llm_signals ticket with
  | Some sig => when (shows_ai_block (Some sig)) (card_ai_block sig)
  | None => []
  end.

(** [TicketCard({ ticket })].  [ago] is the text date-fns produces for
    [ticket.created_at] at the time of rendering. *)
Definition TicketCard (ago : string) (ticket : Ticket) : vnode :=
  Elem "div"
    ("card hover:shadow-md transition-all cursor-pointer border-l-4 touch-target active:scale-[0.98] "
       +:+ (if manual_override ticket then "border-l-purple-500"
            else "border-l-transparent"))
    ([ card_header ticket;
       Elem "p" "text-gray-900 mb-3 line-clamp-2" [Text (text ticket)] ]
     ++ card_ai_signals ticket
     ++ [ Elem "div" "flex items-center justify-between text-xs"
            [ Elem "div" "flex items-center gap-3"
                [getCustomerTierBadge ticket; getSLAWarning ticket];
              Elem "span" "text-gray-500" [Text ago] ] ]).

(** *** TicketDetailModal *)

Definition tierMap : gmap string string :=
  <["enterprise" := "TIER-1"]> (<["business" := "TIER-2"]>
  (<["standard" := "TIER-3"]> (<["free" := "TIER-4"]> ∅))).

(** [getTierDisplay]: [tierMap[tier] || tier.toUpperCase()].  [None] stands
    for a member inherited from [Object.prototype], which is not a string. *)
Definition getTierDisplay (tier : string) : option string :=
  match Obj.get tierMap tier with
  | Obj.Own s => Some (if Str.truthy s then s else Str.toUpperCase tier)
  | Obj.Inherited => None
  | Obj.Absent => Some (Str.toUpperCase tier)
  end.

(** The badge at the top of the overview tab. *)
Definition modal_badge (ticket : Ticket) : vnode :=
  PriorityBadge (priority_band ticket) (Number (priority_score ticket)) lg.

End Components.

(** ** OverrideForm *)

Module OverrideForm.
Import Js Builtin View Model.

(** The four [useState] cells of the form. *)
Record State : Type := {
  priority : string;
  reason : string;
  agentName : string;
  errors : gmap string string
}.

(** The initial state for [currentPriority]. *)
Definition init (currentPriority : number) : State :=
  {| priority := toFixed 0 (mul currentPriority (of_Z 100));
     reason := "";
     agentName := "";
     errors := ∅ |}.

(** The argument of [onSubmit]. *)
Record Payload : Type := {
  data_priority : number;
  data_reason : string;
  data_by : string
}.

(** The errors [validate] collects. *)
Definition newErrors (st : State) : gmap string string :=
  let e0 : gmap string string := ∅ in
  let priorityNum := parseFloat (priority st) in
  let e1 :=
    if isNaN priorityNum || lt priorityNum (of_Z 0) || gt priorityNum (of_Z 100)
    then <["priority" := "Priority must be between 0 and 100"]> e0 else e0 in
  let e2 :=
    if (String.length (Str.trim (reason st)) <? 5)%nat
    then <["reason" := "Reason must be at least 5 characters"]> e1 else e1 in
  let e3 :=
    if (String.length (Str.trim (agentName st)) <? 2)%nat
    then <["agentName" := "Please enter your name"]> e2 else e2 in
  e3.

(** [validate]: stores the errors in the state and answers whether there
    are none. *)
Definition validate (st : State) : State * bool :=
  let e := newErrors st in
  ({| priority := priority st; reason := reason st;
      agentName := agentName st; errors := e |},
   Obj.no_keys e).

(** [handleSubmit]: the state after the handler, and the argument of the
    call of [onSubmit] when there is one. *)
Definition handleSubmit (st : State) : State * option Payload :=
  let '(st', ok) := validate st in
  if negb ok then (st', None)
  else
    (st',
     Some {| data_priority := div (parseFloat (priority st')) (of_Z 100);
             data_reason := Str.trim (reason st');
             data_by := Str.trim (agentName st') |}).

(** [const priorityNum = parseFloat(priority) || 0] *)
Definition priorityNum (st : State) : number :=
  or_else (parseFloat (priority st)) (of_Z 0).

Record BandInfo : Type := { band : string; color : string }.

(** [getPriorityBand], with the [priorityNum] it closes over as argument. *)
Definition getPriorityBand (priorityNum : number) : BandInfo :=
  if ge priorityNum (of_Z 80) then {| band := "P0"; color := "text-red-600" |}
  else if ge priorityNum (of_Z 60) then {| band := "P1"; color := "text-orange-600" |}
  else if ge priorityNum (of_Z 40) then {| band := "P2"; color := "text-yellow-600" |}
  else {| band := "P3"; color := "text-green-600" |}.

Definition priorityInfo (st : State) : BandInfo := getPriorityBand (priorityNum st).

(** The "New Priority" preview. *)
Definition new_priority_preview (st : State) : vnode :=
  Elem "p" ("text-2xl font-bold " +:+ color (priorityInfo st))
    [ Text (toFixed 0 (priorityNum st)); Text "% (";
      Text (band (priorityInfo st)); Text ")" ].

End OverrideForm.

(** ** TicketDetailModal: sending the override *)

Module Modal.
Import Js Model OverrideForm.

(** The body of the override request of the API client. *)
Record ManualOverride : Type := {
  override_priority : number;
  override_reason : string;
  override_by : string
}.

(** The requests the modal sends through [ticketApi]. *)
Inductive request : Type :=
| overridePriority (ticketId : string) (overrideData : ManualOverride)
| removeOverride (ticketId : string).

(** [handleOverride]: the request sent for the data of a submitted form. *)
Definition handleOverride (ticket : Ticket) (data : Payload) : list request :=
  [ overridePriority (ticket_id ticket)
      {| override_priority := data_priority data;
         override_reason := data_reason data;
         override_by := data_by data |} ].

(** The modal in override mode: the ticket it shows, the form, and the
    requests sent so far. *)
Record World : Type := {
  ticket : Ticket;
  form : State;
  sent : list request
}.

(** Pressing "Apply Override": [handleSubmit], with [handleOverride] as its
    [onSubmit]. *)
Definition submit (w : World) : World :=
  let '(form', data) := handleSubmit (form w) in
  {| ticket := ticket w;
     form := form';
     sent := sent w ++ match data with
                       | Some d => handleOverride (ticket w) d
                       | None => []
                       end |}.

End Modal.

(** ** PriorityBreakdown *)

Module Breakdown.
Import Js Model.

Record Component : Type := {
  name : string;
  value : number;
  weight : number;
  contribution : number;
  color : string;
  description : string
}.

(** The [components] array of [PriorityBreakdown]. *)
Definition components (breakdown : PriorityBreakdownData) : list Component :=
  [ {| name := "AI Urgency Analysis";
       value := effective_urgency breakdown;
       weight := Fin 0.4;
       contribution := urgency_contribution breakdown;
       color := "bg-blue-500";
       description := "AI-determined urgency × confidence level" |};
    {| name := "SLA Risk";
       value := sla_risk breakdown;
       weight := Fin 0.4;
       contribution := sla_contribution breakdown;
       color := "bg-orange-500";
       description := "Time-based urgency (< 4hrs = high risk)" |};
    {| name := "Customer Tier";
       value := customer_tier_weight breakdown;
       weight := Fin 0.2;
       contribution := tier_contribution breakdown;
       color := "bg-purple-500";
       description := "Tier-1 > Tier-2 > Tier-3 > Tier-4" |} ].

(** The formula the component prints:
    Priority = (0.4 × Urgency) + (0.4 × SLA) + (0.2 × Tier). *)
Definition formula (urgency sla tier : Q) : Q :=
  (0.4 * urgency) + (0.4 * sla) + (0.2 * tier).

End Breakdown.

(** ** The scoring engine

    The engine runs on the server, whose code is not part of the front end;
    its definitions follow the design document. *)

Module Engine.

Local Open Scope Q_scope.

(** Modelled from the spec: the ordered urgency levels of the AI signal. *)
Inductive UrgencyLevel : Type := low | medium | high | critical.

(** Modelled from the spec: the AI signal as the tagged variant
    [Present | Unavailable | Errored]; [confidence] may be absent. *)
Inductive Signal : Type :=
| Present (urgency : UrgencyLevel) (confidence : option Q)
| Unavailable
| Errored.

(** Modelled from the spec: [urgency_score] maps critical to 1.0, high to
    0.75, medium to 0.5 and low to 0.25. *)
Definition urgency_score (level : UrgencyLevel) : Q :=
  match level with
  | critical => 1.0
  | high => 0.75
  | medium => 0.5
  | low => 0.25
  end.

(** Modelled from the spec: [effective_urgency] is
    [urgency_score(level) * confidence], with confidence 1.0 when absent,
    and 0 when the signal is absent or errored. *)
Definition effective_urgency (signal : Signal) : Q :=
  match signal with
  | Present level confidence => urgency_score level * default 1.0 confidence
  | Unavailable | Errored => 0
  end.

(** Modelled from the spec: [clamp(x, lo, hi)]. *)
Definition clamp (x lo hi : Q) : Q :=
  if Qle_bool x lo then lo else if Qle_bool hi x then hi else x.

(** Modelled from the spec: [sla_risk] is
    [clamp(1 - sla_hours_remaining / reference_window, 0, 1)]. *)
Definition sla_risk (reference_window sla_hours_remaining : Q) : Q :=
  clamp (1 - sla_hours_remaining / reference_window) 0 1.

(** Modelled from the spec: [tier_score] maps enterprise to 1.0, business to
    0.67, standard to 0.33 and free to 0.0; an unrecognised tier gets the
    weight of standard. *)
Definition tier_score (tier : string) : Q :=
  if String.eqb tier "enterprise" then 1.0
  else if String.eqb tier "business" then 0.67
  else if String.eqb tier "standard" then 0.33
  else if String.eqb tier "free" then 0.0
  else 0.33.

(** Modelled from the spec: the fixed weights. *)
Definition w_urgency : Q := 0.4.
(** Modelled from the spec: the fixed weights. *)
Definition w_sla : Q := 0.4.
(** Modelled from the spec: the fixed weights. *)
Definition w_tier : Q := 0.2.

(** Modelled from the spec: the breakdown record, the three normalised
    values, the final score and the three contributions. *)
Record Breakdown : Type := {
  b_effective_urgency : Q;
  b_sla_risk : Q;
  b_customer_tier_weight : Q;
  b_final_score : Q;
  b_urgency_contribution : Q;
  b_sla_contribution : Q;
  b_tier_contribution : Q
}.

(** Modelled from the spec: the scoring step of the priority engine, each
    contribution the product of a normalised value and its weight, the final
    score the sum of the three contributions. *)
Definition score (urgency sla tier : Q) : Breakdown :=
  let urgency_contribution := urgency * w_urgency in
  let sla_contribution := sla * w_sla in
  let tier_contribution := tier * w_tier in
  {| b_effective_urgency := urgency;
     b_sla_risk := sla;
     b_customer_tier_weight := tier;
     b_final_score := urgency_contribution + sla_contribution + tier_contribution;
     b_urgency_contribution := urgency_contribution;
     b_sla_contribution := sla_contribution;
     b_tier_contribution := tier_contribution |}.

(** Modelled from the spec: the priority bands. *)
Inductive Band : Type := P0 | P1 | P2 | P3.

(** Modelled from the spec: banding by thresholds with inclusive lower
    bound: at least 0.80 is P0, at least 0.60 is P1, at least 0.40 is P2,
    anything below is P3. *)
Definition band (final_score : Q) : Band :=
  if Qle_bool 0.80 final_score then P0
  else if Qle_bool 0.60 final_score then P1
  else if Qle_bool 0.40 final_score then P2
  else P3.

Definition band_name (b : Band) : string :=
  match b with P0 => "P0" | P1 => "P1" | P2 => "P2" | P3 => "P3" end.

(** Modelled from the spec: [compute_priority(ticket_inputs, ai_signal)]
    returns the final score, its band and the breakdown; the reference
    window of the SLA risk is configuration. *)
Definition compute_priority
    (reference_window : Q) (tier : string) (sla_hours_remaining : Q)
    (signal : Signal) : Q * Band * Breakdown :=
  let b := score (effective_urgency signal)
                 (sla_risk reference_window sla_hours_remaining)
                 (tier_score tier) in
  (b_final_score b, band (b_final_score b), b).

(** Modelled from the spec: the breakdown as the ticket representation
    transmits it to the front end, field by field. *)
Definition to_data (b : Breakdown) : Model.PriorityBreakdownData :=
  {| Model.effective_urgency := Js.Fin (b_effective_urgency b);
     Model.sla_risk := Js.Fin (b_sla_risk b);
     Model.customer_tier_weight := Js.Fin (b_customer_tier_weight b);
     Model.final_score := Js.Fin (b_final_score b);
     Model.urgency_contribution := Js.Fin (b_urgency_contribution b);
     Model.sla_contribution := Js.Fin (b_sla_contribution b);
     Model.tier_contribution := Js.Fin (b_tier_contribution b) |}.

End Engine.

(** ** Concrete tickets and form states *)

Module Sample.
Import Js Model.
Local Open Scope Q_scope.

(** The scenario of the design document: an enterprise ticket with one hour
    of SLA left, a reference window of 24 hours, and a critical urgency
    signal of confidence 1.0. *)
Definition scenario : Q * Engine.Band * Engine.Breakdown :=
  Engine.compute_priority 24 "enterprise" 1
    (Engine.Present Engine.critical (Some 1.0)).

(** A signal whose analysis failed. *)
Definition errored_signals : LlmSignals :=
  {| urgency := None; confidence := None; sentiment := None;
     sentiment_intensity := None; summary := None;
     error := Some "LLM request timed out" |}.

(** A signal without an urgency level. *)
Definition signals_without_urgency : LlmSignals :=
  {| urgency := None; confidence := Some (Fin 0.9); sentiment := Some "neutral";
     sentiment_intensity := None; summary := None; error := None |}.

Definition ticket_of (tier : string) (sla : number)
    (signals : option LlmSignals) : Ticket :=
  {| ticket_id := "TKT-1001";
     text := "Checkout fails with error 500";
     customer_tier := tier;
     sla_hours_remaining := sla;
     created_at := "2025-01-01T00:00:00Z";
     priority_score := Fin 0.3;
     priority_band := "P3";
     priority_breakdown := None;
     llm_signals := signals;
     manual_override := true;
     override_priority := Some (Fin 0.9);
     override_reason := Some "Customer escalated by phone";
     override_by := Some "Dana";
     override_at := Some "2025-01-01T01:00:00Z";
     effective_priority := Fin 0.9;
     status := "open" |}.

(** A business ticket with 24 hours of SLA left, computed score 0.3 in band
    P3, overridden to 0.9. *)
Definition ticket (signals : option LlmSignals) : Ticket :=
  ticket_of "business" (Fin 24) signals.

(** A ticket of a tier the front end does not know. *)
Definition premium_ticket : Ticket := ticket_of "premium" (Fin 24) None.

(** A ticket whose AI analysis failed. *)
Definition errored_ticket : Ticket := ticket (Some errored_signals).

Definition form (priority reason agentName : string) : OverrideForm.State :=
  {| OverrideForm.priority := priority;
     OverrideForm.reason := reason;
     OverrideForm.agentName := agentName;
     OverrideForm.errors := ∅ |}.

Definition world (priority reason agentName : string) : Modal.World :=
  {| Modal.ticket := ticket None;
     Modal.form := form priority reason agentName;
     Modal.sent := [] |}.

(** The override state of a ticket that was never overridden. *)
Definition no_override : OverrideState :=
  {| os_manual_override := false;
     os_override_priority := None;
     os_override_reason := None;
     os_override_by := None;
     os_override_at := None;
     os_effective_priority := Fin 0.3 |}.

(** An override to another value by another agent. *)
Definition other_override : OverrideState :=
  {| os_manual_override := true;
     os_override_priority := Some (Fin 0.5);
     os_override_reason := Some "Known outage";
     os_override_by := Some "Eli";
     os_override_at := Some "2025-01-02T09:30:00Z";
     os_effective_priority := Fin 0.5 |}.

(** The modal with a form asking for 150 percent, 1.5 on the unit scale. *)
Definition out_of_range_world : Modal.World :=
  world "150" "Customer escalated by phone" "Dana".

(** A form that passes validation. *)
Definition valid_form : OverrideForm.State :=
  form "90" " Customer escalated by phone " "Dana".

End Sample.

(** ** CreateTicketForm *)

Module CreateTicketForm.
Import Js Builtin.

(** The [useState] cells of the form. *)
Record State : Type := {
  text : string;
  customerTier : string;
  slaHours : string;
  customerName : string;
  customerEmail : string;
  customerAccountId : string;
  errors : gmap string string
}.

(** The state the form opens in. *)
Definition init : State :=
  {| text := ""; customerTier := "business"; slaHours := "24";
     customerName := ""; customerEmail := ""; customerAccountId := "";
     errors := ∅ |}.

(** The argument of [onSubmit]; an optional field that is [undefined] is
    [None]. *)
Record Payload : Type := {
  data_text : string;
  data_customer_tier : string;
  data_sla_hours_remaining : number;
  data_customer_name : option string;
  data_customer_email : option string;
  data_customer_account_id : option string
}.

Definition too_short : string := "Ticket description must be at least 10 characters".
Definition too_long : string := "Ticket description must be less than 5000 characters".
Definition bad_sla : string := "SLA hours must be a positive number".

(** The errors [validate] collects. *)
Definition newErrors (st : State) : gmap string string :=
  let e0 : gmap string string := ∅ in
  let e1 :=
    if (String.length (Str.trim (text st)) <? 10)%nat
    then <["text" := too_short]> e0 else e0 in
  let e2 :=
    if (5000 <? String.length (Str.trim (text st)))%nat
    then <["text" := too_long]> e1 else e1 in
  let hours := parseFloat (slaHours st) in
  let e3 :=
    if isNaN hours || le hours (of_Z 0)
    then <["sla" := bad_sla]> e2 else e2 in
  e3.

(** [validate] *)
Definition validate (st : State) : State * bool :=
  let e := newErrors st in
  ({| text := text st; customerTier := customerTier st; slaHours := slaHours st;
      customerName := customerName st; customerEmail := customerEmail st;
      customerAccountId := customerAccountId st; errors := e |},
   Obj.no_keys e).

(** [s.trim() || undefined] *)
Definition optional (s : string) : option string :=
  if Str.truthy (Str.trim s) then Some (Str.trim s) else None.

(** [handleSubmit]: the state after the handler, and the argument of the
    call of [onSubmit] when there is one. *)
Definition handleSubmit (st : State) : State * option Payload :=
  let '(st', ok) := validate st in
  if negb ok then (st', None)
  else
    (st',
     Some {| data_text := Str.trim (text st');
             data_customer_tier := customerTier st';
             data_sla_hours_remaining := parseFloat (slaHours st');
             data_customer_name := optional (customerName st');
             data_customer_email := optional (customerEmail st');
             data_customer_account_id := optional (customerAccountId st') |}).

End CreateTicketForm.

(** ** Event handlers as traces

    An asynchronous handler is the sequence of the state updates and
    effects it performs, given how the calls it awaits turned out. *)

Module Handlers.
Import Js Model.

(** The requests of [ticketApi] the handlers send. *)
Inductive call : Type :=
| getQueue
| createTicket (data : CreateTicketForm.Payload)
| overrideTicket (r : Modal.request)
| resetSystem.

Inductive event : Type :=
| SetLoading (b : bool)
| SetTickets (ts : list Ticket)
| SetError (e : option string)
| SetIsSubmitting (b : bool)
| SetIsCreateModalOpen (b : bool)
| SetIsOverrideMode (b : bool)
| Confirm (message : string)
| Api (c : call)
| Alert (message : string)
| ConsoleError (message : string)
| OnClose.

(** The calls sent by a trace, in order. *)
Definition calls (tr : list event) : list call :=
  omap (fun e => match e with Api c => Some c | _ => None end) tr.

(** The alerts shown by a trace, in order. *)
Definition alerts (tr : list event) : list string :=
  omap (fun e => match e with Alert m => Some m | _ => None end) tr.

End Handlers.

(** ** TicketDetailModal: the handlers *)

Module DetailModal.
Import Js Model Handlers.

(** The state cells of the modal the handlers write. *)
Record State : Type := {
  isOverrideMode : bool;
  isSubmitting : bool
}.

Definition step (st : State) (e : event) : State :=
  match e with
  | SetIsOverrideMode b => {| isOverrideMode := b; isSubmitting := isSubmitting st |}
  | SetIsSubmitting b => {| isOverrideMode := isOverrideMode st; isSubmitting := b |}
  | _ => st
  end.

(** The state after a trace. *)
Definition run (st : State) (tr : list event) : State := foldl step st tr.

(** [handleOverride]; [ok] tells whether the awaited request succeeded. *)
Definition handleOverride (ok : bool) (ticket : Ticket)
    (data : OverrideForm.Payload) : list event :=
  [SetIsSubmitting true]
  ++ map (fun r => Api (overrideTicket r)) (Modal.handleOverride ticket data)
  ++ (if ok
      then [ SetIsOverrideMode false;
             Alert "Priority override applied successfully!"; OnClose ]
      else [ ConsoleError "Failed to apply override:";
             Alert "Failed to apply override. Please try again." ])
  ++ [SetIsSubmitting false].

(** [handleRemoveOverride]; [confirmed] is the answer to the confirmation
    dialog, [ok] tells whether the awaited request succeeded. *)
Definition handleRemoveOverride (confirmed ok : bool) (ticket : Ticket) : list event :=
  Confirm "Remove manual override and revert to AI-calculated priority?"
  :: if negb confirmed then []
     else
       [ SetIsSubmitting true;
         Api (overrideTicket (Modal.removeOverride (ticket_id ticket))) ]
       ++ (if ok
           then [Alert "Override removed successfully!"; OnClose]
           else [ ConsoleError "Failed to remove override:";
                  Alert "Failed to remove override. Please try again." ])
       ++ [SetIsSubmitting false].

(** Pressing "Apply Override" on the form shown by the modal: the form's
    [handleSubmit] with [handleOverride] as [onSubmit]. *)
Definition applyOverride (ok : bool) (ticket : Ticket)
    (form : OverrideForm.State) : OverrideForm.State * list event :=
  let '(form', data) := OverrideForm.handleSubmit form in
  (form', match data with
          | Some d => handleOverride ok ticket d
          | None => []
          end).

(** The action at the foot of the modal outside override mode: "Remove
    Override" for an overridden ticket, "Override Priority" otherwise. *)
Definition action_label (ticket : Ticket) : string :=
  if manual_override ticket then "Remove Override" else "Override Priority".

End DetailModal.

(** ** App *)

Module App.
Import Js Builtin View Model Handlers.

Inductive ActiveView : Type := queue | analytics.

(** The state cells of [App] the handlers write and the view reads. *)
Record State : Type := {
  tickets : list Ticket;
  loading : bool;
  error : option string;
  isCreateModalOpen : bool;
  isSubmitting : bool;
  activeView : ActiveView
}.

(** The state [App] starts in. *)
Definition init : State :=
  {| tickets := []; loading := true; error := None;
     isCreateModalOpen := false; isSubmitting := false; activeView := queue |}.

Definition step (st : State) (e : event) : State :=
  match e with
  | SetTickets ts =>
      {| tickets := ts; loading := loading st; error := error st;
         isCreateModalOpen := isCreateModalOpen st;
         isSubmitting := isSubmitting st; activeView := activeView st |}
  | SetLoading b =>
      {| tickets := tickets st; loading := b; error := error st;
         isCreateModalOpen := isCreateModalOpen st;
         isSubmitting := isSubmitting st; activeView := activeView st |}
  | SetError e =>
      {| tickets := tickets st; loading := loading st; error := e;
         isCreateModalOpen := isCreateModalOpen st;
         isSubmitting := isSubmitting st; activeView := activeView st |}
  | SetIsCreateModalOpen b =>
      {| tickets := tickets st; loading := loading st; error := error st;
         isCreateModalOpen := b;
         isSubmitting := isSubmitting st; activeView := activeView st |}
  | SetIsSubmitting b =>
      {| tickets := tickets st; loading := loading st; error := error st;
         isCreateModalOpen := isCreateModalOpen st;
         isSubmitting := b; activeView := activeView st |}
  | _ => st
  end.

(** The state after a trace. *)
Definition run (st : State) (tr : list event) : State := foldl step st tr.

Definition load_failed : string :=
  "Failed to load tickets. Make sure backend is running.".

(** [loadTickets]; [outcome] is the queue the awaited request returned, or
    [None] when it failed.  The value logged on failure is the error
    caught. *)
Definition loadTickets (outcome : option (list Ticket)) : list event :=
  [SetLoading true; Api getQueue]
  ++ match outcome with
     | Some data => [SetTickets data; SetError None]
     | None => [SetError (Some load_failed); ConsoleError "err"]
     end
  ++ [SetLoading false].

(** [handleCreateTicket]; [created] tells whether the request succeeded,
    [reload] is the outcome of the reload that follows a success. *)
Definition handleCreateTicket (created : bool) (reload : option (list Ticket))
    (data : CreateTicketForm.Payload) : list event :=
  [SetIsSubmitting true; Api (createTicket data)]
  ++ (if created
      then SetIsCreateModalOpen false :: loadTickets reload
      else [ ConsoleError "Failed to create ticket:";
             Alert "Failed to create ticket. Please try again." ])
  ++ [SetIsSubmitting false].

(** [handleReset] *)
Definition handleReset (confirmed reset_ok : bool)
    (reload : option (list Ticket)) : list event :=
  Confirm "Reset system to sample data? This will replace all current tickets."
  :: if negb confirmed then []
     else
       [SetLoading true; Api resetSystem]
       ++ (if reset_ok
           then loadTickets reload
                ++ [Alert "System reset successfully! Sample tickets loaded and analyzed."]
           else [ ConsoleError "Failed to reset system:";
                  Alert "Failed to reset system. Please try again." ])
       ++ [SetLoading false].

(** The [onClose] of the create modal:
    [!isSubmitting && setIsCreateModalOpen(false)]. *)
Definition closeCreateModal (st : State) : list event :=
  if negb (isSubmitting st) then [SetIsCreateModalOpen false] else [].

(** Pressing "Create Ticket" on the form shown by the create modal: the
    form's [handleSubmit] with [handleCreateTicket] as [onSubmit]. *)
Definition createFromForm (created : bool) (reload : option (list Ticket))
    (form : CreateTicketForm.State) : CreateTicketForm.State * list event :=
  let '(form', data) := CreateTicketForm.handleSubmit form in
  (form', match data with
          | Some d => handleCreateTicket created reload d
          | None => []
          end).

(** Which of the three [return] statements of [App] renders. *)
Inductive Screen : Type :=
| LoadingScreen
| ErrorScreen (message : string)
| MainScreen.

Definition screen (st : State) : Screen :=
  if loading st then LoadingScreen
  else match error st with
       | Some e => if Str.truthy e then ErrorScreen e else MainScreen
       | None => MainScreen
       end.

(** [tickets.filter((t) => t.priority_band === band).length] *)
Definition count (band : string) (ts : list Ticket) : nat :=
  length (List.filter (fun t => String.eqb (priority_band t) band) ts).

(** Whether the band of a ticket is one of the four boxes of the stats
    bar. *)
Definition known_band (t : Ticket) : bool :=
  String.eqb (priority_band t) "P0" || String.eqb (priority_band t) "P1"
  || String.eqb (priority_band t) "P2" || String.eqb (priority_band t) "P3".

Definition bgClass (band : string) : string :=
  if String.eqb band "P0" then "badge-p0"
  else if String.eqb band "P1" then "badge-p1"
  else if String.eqb band "P2" then "badge-p2"
  else "badge-p3".

(** The stats bar: one box per band with the number of tickets in it. *)
Definition stats_bar (ts : list Ticket) : list vnode :=
  map (fun band =>
         Elem "div" "card text-center"
           [ Elem "div"
               ("text-xl sm:text-2xl font-bold px-3 py-1.5 sm:px-4 sm:py-2 rounded inline-block "
                  +:+ bgClass band)
               [Text (Str.of_N (N.of_nat (count band ts)))];
             Elem "div" "text-xs sm:text-sm text-gray-600 mt-2" [Text band] ])
      ["P0"; "P1"; "P2"; "P3"].

Definition empty_queue : vnode :=
  Elem "div" "card text-center py-12"
    [ Elem "p" "text-gray-500 mb-4" [Text "No tickets in queue"];
      Elem "button" "btn-primary" [Text "Create Your First Ticket"] ].

(** The ticket list; [ago] gives the text date-fns produces for a creation
    time at the time of rendering. *)
Definition ticket_list (ago : string -> string) (ts : list Ticket) : list vnode :=
  if (length ts =? 0)%nat then [empty_queue]
  else map (fun t => Components.TicketCard (ago (created_at t)) t) ts.

End App.

(** ** Analytics *)

Module Analytics.
Import Js Builtin Model.

(** [Statistics]; the two distributions are listed as [Object.entries]
    enumerates them. *)
Record Statistics : Type := {
  total_tickets : number;
  open_tickets : number;
  in_progress : number;
  resolved : number;
  priority_distribution : list (string * number);
  override_count : number;
  override_rate : number;
  tier_distribution : list (string * number)
}.

(** [a + b] *)
Definition add (a b : number) : number :=
  match a, b with
  | NaN, _ | _, NaN => NaN
  | Fin p, Fin q => Fin (p + q)
  | PosInf, NegInf | NegInf, PosInf => NaN
  | PosInf, _ | _, PosInf => PosInf
  | NegInf, _ | _, NegInf => NegInf
  end.

(** [a - b] *)
Definition sub (a b : number) : number :=
  match a, b with
  | NaN, _ | _, NaN => NaN
  | Fin p, Fin q => Fin (p - q)
  | PosInf, PosInf | NegInf, NegInf => NaN
  | PosInf, _ | _, NegInf => PosInf
  | NegInf, _ | _, PosInf => NegInf
  end.

(** [const totalTickets = stats.total_tickets || 1] *)
Definition totalTickets (stats : Statistics) : number :=
  or_else (total_tickets stats) (of_Z 1).


(** [const percentage = (count / stats.open_tickets) * 100 || 0] *)
Definition percentage (stats : Statistics) (count : number) : number :=
  or_else (mul (div count (open_tickets stats)) (of_Z 100)) (of_Z 0).

Record Color : Type := { bg : string; text : string; bar : string }.

Definition colors : gmap string Color :=
  <["P0" := {| bg := "bg-red-100"; text := "text-red-800"; bar := "bg-red-500" |}]>
  (<["P1" := {| bg := "bg-orange-100"; text := "text-orange-800"; bar := "bg-orange-500" |}]>
  (<["P2" := {| bg := "bg-yellow-100"; text := "text-yellow-800"; bar := "bg-yellow-500" |}]>
  (<["P3" := {| bg := "bg-green-100"; text := "text-green-800"; bar := "bg-green-500" |}]> ∅))).

(** The class name of the label of a row of the priority distribution,
    [`px-2 py-0.5 rounded text-xs font-semibold ${color.bg} ${color.text}`]
    with [color = colors[priority]]: [None] when [color] is [undefined] and
    reading [color.bg] throws a TypeError. *)
Definition priority_label_class (priority : string) : option string :=
  match Obj.get colors priority with
  | Obj.Own c =>
      Some ("px-2 py-0.5 rounded text-xs font-semibold " +:+ bg c +:+ " " +:+ text c)
  | Obj.Inherited =>
      Some "px-2 py-0.5 rounded text-xs font-semibold undefined undefined"
  | Obj.Absent => None
  end.

Definition tierNames : gmap string string :=
  <["enterprise" := "TIER-1"]> (<["business" := "TIER-2"]>
  (<["standard" := "TIER-3"]> (<["free" := "TIER-4"]> ∅))).

(** [tierNames[tier] || tier.toUpperCase()]; [None] stands for a member
    inherited from [Object.prototype], which is not a string. *)
Definition tier_name (tier : string) : option string :=
  match Obj.get tierNames tier with
  | Obj.Own s => Some (if Str.truthy s then s else Str.toUpperCase tier)
  | Obj.Inherited => None
  | Obj.Absent => Some (Str.toUpperCase tier)
  end.

Definition tierColors : gmap string string :=
  <["enterprise" := "bg-purple-500"]> (<["business" := "bg-blue-500"]>
  (<["standard" := "bg-gray-500"]> (<["free" := "bg-slate-500"]> ∅))).

(** [tierColors[tier] || 'bg-gray-500'], with [None] as for [tier_name]. *)
Definition tier_color (tier : string) : option string :=
  match Obj.get tierColors tier with
  | Obj.Own s => Some (if Str.truthy s then s else "bg-gray-500")
  | Obj.Inherited => None
  | Obj.Absent => Some "bg-gray-500"
  end.

(** The insight shown for the override rate. *)
Definition insight (stats : Statistics) : string :=
  if lt (override_rate stats) (Fin 0.2)
  then "AI is performing well with minimal human intervention needed."
  else if lt (override_rate stats) (Fin 0.4)
  then "Moderate override rate - consider reviewing AI thresholds."
  else "High override rate - AI may need recalibration.".

(** [(1 - stats.override_rate) * 100], the AI autonomy score. *)
Definition autonomy (stats : Statistics) : number :=
  mul (sub (of_Z 1) (override_rate stats)) (of_Z 100).

(** [(stats.open_tickets / totalTickets) * 50 + (1 - stats.override_rate) * 50],
    the system health score. *)
Definition health (stats : Statistics) : number :=
  add (mul (div (open_tickets stats) (totalTickets stats)) (of_Z 50))
      (mul (sub (of_Z 1) (override_rate stats)) (of_Z 50)).

End Analytics.

(** ** PriorityBreakdown: the bars *)

Module Bars.
Import Js Model.

(** The width, in percent, of the bar of a component value,
    [component.value * 100]. *)
Definition value_width (c : Breakdown.Component) : number :=
  mul (Breakdown.value c) (of_Z 100).

(** The width, in percent, of the bar of a contribution,
    [(component.contribution / breakdown.final_score) * 100]. *)
Definition contribution_width (breakdown : PriorityBreakdownData)
    (c : Breakdown.Component) : number :=
  mul (div (Breakdown.contribution c) (final_score breakdown)) (of_Z 100).

End Bars.

(** ** Strings of decimal digits *)

Module Digits.
Import Js Builtin.

(** Every character is a decimal digit. *)
Fixpoint all_digits (s : string) : bool :=
  match s with
  | EmptyString => true
  | String c r =>
      match Str.digit_of c with Some _ => all_digits r | None => false end
  end.

(** The number a string of digits denotes. *)
Fixpoint val (s : string) : Z :=
  match s with
  | EmptyString => 0
  | String c r =>
      default 0%Z (Str.digit_of c) * 10 ^ Z.of_nat (String.length r) + val r
  end.


End Digits.

(** ** Further concrete inputs *)

Module Fixture.
Import Js Model.
Local Open Scope Q_scope.

(** A create form that passes validation. *)
Definition create_form : CreateTicketForm.State :=
  {| CreateTicketForm.text := "  Checkout fails with error 500 ";
     CreateTicketForm.customerTier := "enterprise";
     CreateTicketForm.slaHours := "4";
     CreateTicketForm.customerName := "  ";
     CreateTicketForm.customerEmail := "dana@example.com";
     CreateTicketForm.customerAccountId := "";
     CreateTicketForm.errors := ∅ |}.

(** What [create_form] submits. *)
Definition create_payload : CreateTicketForm.Payload :=
  {| CreateTicketForm.data_text := "Checkout fails with error 500";
     CreateTicketForm.data_customer_tier := "enterprise";
     CreateTicketForm.data_sla_hours_remaining := Builtin.parseFloat "4";
     CreateTicketForm.data_customer_name := None;
     CreateTicketForm.data_customer_email := Some "dana@example.com";
     CreateTicketForm.data_customer_account_id := None |}.

(** The request [Sample.valid_form] sends for [Sample.ticket None]. *)
Definition override_call : Handlers.call :=
  Handlers.overrideTicket
    (Modal.overridePriority "TKT-1001"
       {| Modal.override_priority := div (Builtin.parseFloat "90") (of_Z 100);
          Modal.override_reason := "Customer escalated by phone";
          Modal.override_by := "Dana" |}).

(** A ticket whose band is none of the four the front end knows. *)
Definition odd_band_ticket : Ticket :=
  {| ticket_id := "TKT-1002";
     text := "Invoice total is wrong";
     customer_tier := "standard";
     sla_hours_remaining := Fin 12;
     created_at := "2025-01-03T00:00:00Z";
     priority_score := Fin 0.5;
     priority_band := "P9";
     priority_breakdown := None;
     llm_signals := None;
     manual_override := false;
     override_priority := None;
     override_reason := None;
     override_by := None;
     override_at := None;
     effective_priority := Fin 0.5;
     status := "open" |}.

(** Statistics of twelve tickets, nine of them open, a quarter of them
    overridden. *)
Definition stats : Analytics.Statistics :=
  {| Analytics.total_tickets := Fin 12;
     Analytics.open_tickets := Fin 9;
     Analytics.in_progress := Fin 2;
     Analytics.resolved := Fin 1;
     Analytics.priority_distribution :=
       [("P0", Fin 1); ("P1", Fin 3); ("P2", Fin 4); ("P3", Fin 4)];
     Analytics.override_count := Fin 3;
     Analytics.override_rate := Fin 0.25;
     Analytics.tier_distribution :=
       [("enterprise", Fin 5); ("business", Fin 4); ("free", Fin 3)] |}.

(** The breakdown of a ticket with urgency 0.5, SLA risk 0.75 and tier
    weight 1. *)
Definition breakdown : PriorityBreakdownData :=
  {| effective_urgency := Fin 0.5;
     sla_risk := Fin 0.75;
     customer_tier_weight := Fin 1;
     final_score := Fin 0.7;
     urgency_contribution := Fin 0.2;
     sla_contribution := Fin 0.3;
     tier_contribution := Fin 0.2 |}.

(** The breakdown of a ticket whose three signals are all zero. *)
Definition zero_breakdown : PriorityBreakdownData :=
  {| effective_urgency := Fin 0;
     sla_risk := Fin 0;
     customer_tier_weight := Fin 0;
     final_score := Fin 0;
     urgency_contribution := Fin 0;
     sla_contribution := Fin 0;
     tier_contribution := Fin 0 |}.

(** The SLA component of [zero_breakdown]. *)
Definition zero_sla_component : Breakdown.Component :=
  {| Breakdown.name := "SLA Risk";
     Breakdown.value := Fin 0;
     Breakdown.weight := Fin 0.4;
     Breakdown.contribution := Fin 0;
     Breakdown.color := "bg-orange-500";
     Breakdown.description := "Time-based urgency (< 4hrs = high risk)" |}.

End Fixture.

(** * Properties *)

(** Refutes a hypothesis [E : x ∈ l] for a literal list [l] of strings none
    of which is [x]. *)
Ltac not_in_literal E :=
  repeat (apply elem_of_cons in E as [E|E]; [discriminate E|]);
  apply elem_of_nil in E; exact E.

(** Runs through a cascade of [String.eqb s c] tests on a string [s] that a
    hypothesis [H] keeps out of the literals tested. *)
Ltac skip_literals s H :=
  repeat match goal with
  | |- context [String.eqb s ?c] =>
      destruct (String.eqb_spec s c) as [->|_];
      [exfalso; apply H; set_solver|]
  end.

(** ** Comparisons of finite numbers *)

Section NumberFacts.
Import Js.
Local Open Scope Q_scope.

Lemma lt_Fin (p q : Q) : lt (Fin p) (Fin q) = true <-> p < q.
Proof.
  unfold lt; cbn. rewrite Qlt_alt. destruct (p ?= q); split; congruence.
Qed.

Lemma gt_Fin (p q : Q) : gt (Fin p) (Fin q) = true <-> q < p.
Proof.
  unfold gt; cbn. rewrite Qgt_alt. destruct (p ?= q); split; congruence.
Qed.

Lemma le_Fin (p q : Q) : le (Fin p) (Fin q) = true <-> p <= q.
Proof.
  unfold le; cbn. rewrite Qle_alt. destruct (p ?= q); split; congruence.
Qed.

Lemma ge_Fin (p q : Q) : ge (Fin p) (Fin q) = true <-> q <= p.
Proof.
  unfold ge; cbn. rewrite Qge_alt. destruct (p ?= q); split; congruence.
Qed.

Lemma lt_Fin_false (p q : Q) : lt (Fin p) (Fin q) = false <-> q <= p.
Proof.
  rewrite <- not_true_iff_false, lt_Fin. split; [apply Qnot_lt_le | apply Qle_not_lt].
Qed.

Lemma ge_Fin_false (p q : Q) : ge (Fin p) (Fin q) = false <-> p < q.
Proof.
  rewrite <- not_true_iff_false, ge_Fin. split; [apply Qnot_le_lt | apply Qlt_not_le].
Qed.

Lemma gt_Fin_false (p q : Q) : gt (Fin p) (Fin q) = false <-> p <= q.
Proof.
  rewrite <- not_true_iff_false, gt_Fin. split; [apply Qnot_lt_le | apply Qle_not_lt].
Qed.

Lemma div_Fin_100 (q : Q) : div (Fin q) (of_Z 100) = Fin (q / 100).
Proof. reflexivity. Qed.

Lemma mul_Fin_100 (q : Q) : mul (Fin q) (of_Z 100) = Fin (q * 100).
Proof. reflexivity. Qed.

End NumberFacts.

(** ** Scoring and banding *)

Section Scoring.
Import Engine.
Local Open Scope Q_scope.

Lemma band_P0 (s : Q) : band s = P0 <-> 0.80 <= s.
Proof.
  unfold band. rewrite <- Qle_bool_iff.
  destruct (Qle_bool 0.80 s); [tauto|].
  destruct (Qle_bool 0.60 s); [split; congruence|].
  destruct (Qle_bool 0.40 s); split; congruence.
Qed.

Lemma Qle_bool_false (a b : Q) : Qle_bool a b = false <-> b < a.
Proof.
  rewrite <- not_true_iff_false, Qle_bool_iff.
  split; [apply Qnot_le_lt | apply Qlt_not_le].
Qed.

Lemma band_cases (s : Q) :
  (0.80 <= s /\ band s = P0) \/
  (0.60 <= s < 0.80 /\ band s = P1) \/
  (0.40 <= s < 0.60 /\ band s = P2) \/
  (s < 0.40 /\ band s = P3).
Proof.
  unfold band.
  destruct (Qle_bool 0.80 s) eqn:H0.
  { left. apply Qle_bool_iff in H0. auto. }
  apply Qle_bool_false in H0.
  destruct (Qle_bool 0.60 s) eqn:H1.
  { right; left. apply Qle_bool_iff in H1. auto. }
  apply Qle_bool_false in H1.
  destruct (Qle_bool 0.40 s) eqn:H2.
  { right; right; left. apply Qle_bool_iff in H2. auto. }
  apply Qle_bool_false in H2. right; right; right. auto.
Qed.

(** The preview of the override form bands a percentage the way the engine
    bands the score it is a hundred times of. *)
Lemma getPriorityBand_percent (s : Q) :
  OverrideForm.band (OverrideForm.getPriorityBand (Js.mul (Js.Fin s) (Js.of_Z 100)))
  = band_name (band s).
Proof.
  rewrite mul_Fin_100. unfold OverrideForm.getPriorityBand.
  destruct (band_cases s) as [[H ->]|[[H ->]|[[H ->]|[H ->]]]]; cbn [band_name].
  - assert (E : Js.ge (Js.Fin (s * 100)) (Js.of_Z 80) = true)
      by (apply ge_Fin; unfold inject_Z; lra).
    now rewrite E.
  - assert (E0 : Js.ge (Js.Fin (s * 100)) (Js.of_Z 80) = false)
      by (apply ge_Fin_false; unfold inject_Z; lra).
    assert (E1 : Js.ge (Js.Fin (s * 100)) (Js.of_Z 60) = true)
      by (apply ge_Fin; unfold inject_Z; lra).
    now rewrite E0, E1.
  - assert (E0 : Js.ge (Js.Fin (s * 100)) (Js.of_Z 80) = false)
      by (apply ge_Fin_false; unfold inject_Z; lra).
    assert (E1 : Js.ge (Js.Fin (s * 100)) (Js.of_Z 60) = false)
      by (apply ge_Fin_false; unfold inject_Z; lra).
    assert (E2 : Js.ge (Js.Fin (s * 100)) (Js.of_Z 40) = true)
      by (apply ge_Fin; unfold inject_Z; lra).
    now rewrite E0, E1, E2.
  - assert (E0 : Js.ge (Js.Fin (s * 100)) (Js.of_Z 80) = false)
      by (apply ge_Fin_false; unfold inject_Z; lra).
    assert (E1 : Js.ge (Js.Fin (s * 100)) (Js.of_Z 60) = false)
      by (apply ge_Fin_false; unfold inject_Z; lra).
    assert (E2 : Js.ge (Js.Fin (s * 100)) (Js.of_Z 40) = false)
      by (apply ge_Fin_false; unfold inject_Z; lra).
    now rewrite E0, E1, E2.
Qed.

(** C1: the engine combines the three normalised signals with the fixed
    weights 0.4 (urgency), 0.4 (SLA risk) and 0.2 (tier), the weights the
    breakdown view lists; the weights sum to 1; and in every breakdown the
    engine computes, the three contributions add up to the final score
    exactly, each contribution being its value times its weight. *)
Theorem C1_weighted_contributions_sum_to_final_score :
  w_urgency = 0.4 /\ w_sla = 0.4 /\ w_tier = 0.2 /\
  w_urgency + w_sla + w_tier == 1 /\
  (forall d, map Breakdown.weight (Breakdown.components d)
             = [Js.Fin w_urgency; Js.Fin w_sla; Js.Fin w_tier]) /\
  (forall (reference_window : Q) (tier : string) (hours : Q) (signal : Signal),
     let r := compute_priority reference_window tier hours signal in
     let b := r.2 in
     b_urgency_contribution b + b_sla_contribution b + b_tier_contribution b
       = b_final_score b /\
     r.1.1 = b_final_score b /\
     b_urgency_contribution b = b_effective_urgency b * w_urgency /\
     b_sla_contribution b = b_sla_risk b * w_sla /\
     b_tier_contribution b = b_customer_tier_weight b * w_tier /\
     b_final_score b ==
       Breakdown.formula (b_effective_urgency b) (b_sla_risk b)
                         (b_customer_tier_weight b) /\
     Forall (fun c => Js.mul (Breakdown.value c) (Breakdown.weight c)
                      = Breakdown.contribution c)
            (Breakdown.components (to_data b))).
Proof.
  repeat split; try reflexivity.
  - cbn. unfold Breakdown.formula, w_urgency, w_sla, w_tier. ring.
  - repeat constructor.
Qed.

(** C2: banding is a total function of the score whose four bands do not
    overlap and have inclusive lower bounds: a score is in P0 exactly when it
    is at least 0.80, in P1 exactly when it is in [0.60, 0.80), in P2 exactly
    when it is in [0.40, 0.60), and in P3 exactly when it is below 0.40; the
    band preview of the override form applies the same thresholds to the
    percentage. *)
Theorem C2_banding_partition :
  forall s : Q,
    (band s = P0 <-> 0.80 <= s) /\
    (band s = P1 <-> 0.60 <= s < 0.80) /\
    (band s = P2 <-> 0.40 <= s < 0.60) /\
    (band s = P3 <-> s < 0.40) /\
    OverrideForm.band
      (OverrideForm.getPriorityBand (Js.mul (Js.Fin s) (Js.of_Z 100)))
    = band_name (band s).
Proof.
  intros s. pose proof (band_cases s) as C.
  split; [apply band_P0|].
  split; [|split; [|split; [|apply getPriorityBand_percent]]].
  all: destruct C as [[H E]|[[H E]|[[H E]|[H E]]]]; rewrite E.
  all: split; intros X; try discriminate X; try reflexivity; try lra.
  all: exfalso; lra.
Qed.

(** C3, as stated, fails: on the scenario the weighted formula yields 59/60
    in band P0, not a final score of about 0.783 in band P1. *)
Lemma C3_scenario_is_not_0783_in_P1 :
  Sample.scenario.1.1 == 59 # 60 /\
  Sample.scenario.1.2 = P0 /\
  ~ Qabs (Sample.scenario.1.1 - 0.783) <= 0.0005 /\
  Sample.scenario.1.2 <> P1.
Proof.
  repeat split; intros H; vm_compute in H; try discriminate H.
  now apply H.
Qed.

(** C3, amended: on the scenario (tier weight 1.0, SLA risk 23/24, about
    0.958, effective urgency 1.0) the weighted formula
    0.4 * urgency + 0.4 * sla + 0.2 * tier yields the final score 59/60,
    about 0.983, which the banding thresholds map to band P0, on the unit
    scale and on the percent scale of the override form alike. *)
Theorem C3_scenario_scores_0983_in_P0 :
  tier_score "enterprise" == 1 /\
  sla_risk 24 1 == 23 # 24 /\
  Qabs (sla_risk 24 1 - 0.958) <= 0.0005 /\
  effective_urgency (Present critical (Some 1.0)) == 1 /\
  Sample.scenario.1.1 == Breakdown.formula 1 (23 # 24) 1 /\
  Sample.scenario.1.1 == 59 # 60 /\
  Qabs (Sample.scenario.1.1 - 0.983) <= 0.0005 /\
  Sample.scenario.1.2 = P0 /\
  OverrideForm.band
    (OverrideForm.getPriorityBand (Js.mul (Js.Fin Sample.scenario.1.1) (Js.of_Z 100)))
  = "P0".
Proof.
  repeat split; try reflexivity; intros H; vm_compute in H; discriminate H.
Qed.

End Scoring.

(** ** The override form *)

Section Override.
Import Js Builtin OverrideForm.
Local Open Scope Q_scope.

(** The range test of [validate] passes exactly when the priority of the
    payload, the parsed input divided by 100, is in the unit interval. *)
Lemma unit_interval_iff_percent_in_range (n : number) :
  le (of_Z 0) (div n (of_Z 100)) && le (div n (of_Z 100)) (of_Z 1)
  = negb (isNaN n || lt n (of_Z 0) || gt n (of_Z 100)).
Proof.
  destruct n as [| | |q]; try reflexivity.
  rewrite div_Fin_100. cbn [isNaN orb]. unfold of_Z.
  apply eq_true_iff_eq.
  rewrite andb_true_iff, negb_true_iff, orb_false_iff, !le_Fin,
    lt_Fin_false, gt_Fin_false.
  unfold inject_Z, Qdiv. change (/ (100 # 1)) with (1 # 100).
  split; intros [H1 H2]; split; lra.
Qed.

Lemma no_keys_true {A : Type} (m : gmap string A) :
  Obj.no_keys m = true <-> m = ∅.
Proof.
  unfold Obj.no_keys. rewrite Nat.eqb_eq. apply map_size_empty_iff.
Qed.

Lemma no_keys_insert {A : Type} (k : string) (a : A) (m : gmap string A) :
  Obj.no_keys (<[k := a]> m) = false.
Proof.
  apply not_true_iff_false. rewrite no_keys_true. apply insert_non_empty.
Qed.

(** [validate] accepts exactly the states that pass its three tests. *)
Lemma validate_true_iff (st : State) :
  (validate st).2 = true <->
  isNaN (parseFloat (priority st)) || lt (parseFloat (priority st)) (of_Z 0)
    || gt (parseFloat (priority st)) (of_Z 100) = false /\
  (String.length (Str.trim (reason st)) <? 5)%nat = false /\
  (String.length (Str.trim (agentName st)) <? 2)%nat = false.
Proof.
  unfold validate, newErrors; cbn [snd].
  destruct (isNaN _ || _ || _);
    destruct (_ <? 5)%nat; destruct (_ <? 2)%nat;
    rewrite ?no_keys_insert; try (split; [discriminate | intros (?&?&?); discriminate]).
  split; [auto | reflexivity].
Qed.

Lemma handleSubmit_rejected (st : State) :
  (validate st).2 = false ->
  handleSubmit st = ((validate st).1, None).
Proof.
  unfold handleSubmit. destruct (validate st) as [st' ok]; cbn. now intros ->.
Qed.

Lemma handleSubmit_accepted (st : State) :
  (validate st).2 = true ->
  handleSubmit st
  = ((validate st).1,
     Some {| data_priority := div (parseFloat (priority st)) (of_Z 100);
             data_reason := Str.trim (reason st);
             data_by := Str.trim (agentName st) |}).
Proof.
  unfold handleSubmit, validate; cbn. now intros ->.
Qed.

(** [onSubmit] is called only after a successful validation. *)
Lemma handleSubmit_submits_iff (st : State) :
  (handleSubmit st).2 <> None <-> (validate st).2 = true.
Proof.
  destruct (validate st).2 eqn:V.
  - rewrite (handleSubmit_accepted st V). cbn. split; [reflexivity|discriminate].
  - rewrite (handleSubmit_rejected st V). cbn. split; [congruence|discriminate].
Qed.

(** The form opens on the percentage of the current priority, and its
    preview bands the percentage typed. *)
Example override_form_preview :
  priority (init (Fin 0.783)) = "78" /\
  View.texts (new_priority_preview (init (Fin 0.783))) = ["78"; "% ("; "P1"; ")"] /\
  View.texts (new_priority_preview (Sample.form "80" "" "")) = ["80"; "% ("; "P0"; ")"] /\
  View.texts (new_priority_preview (Sample.form "" "" "")) = ["0"; "% ("; "P3"; ")"].
Proof. vm_compute. repeat split. Qed.

End Override.

Section OverrideClaims.
Import Js Builtin OverrideForm.
Local Open Scope Q_scope.

(** C4: a request whose priority, the parsed input divided by 100, is
    outside the unit interval (or is not a number), or whose trimmed reason
    has fewer than 5 characters, or whose trimmed agent name has fewer than 2
    characters, is rejected as a whole: [onSubmit] is not called, no request
    is sent, the ticket is unchanged, and the form keeps its inputs. *)
Theorem C4_rejected_override_is_not_submitted (w : Modal.World) :
  (le (of_Z 0) (div (parseFloat (priority (Modal.form w))) (of_Z 100))
     && le (div (parseFloat (priority (Modal.form w))) (of_Z 100)) (of_Z 1)
   = false \/
   (String.length (Str.trim (reason (Modal.form w))) < 5)%nat \/
   (String.length (Str.trim (agentName (Modal.form w))) < 2)%nat) ->
  (handleSubmit (Modal.form w)).2 = None /\
  Modal.sent (Modal.submit w) = Modal.sent w /\
  Modal.ticket (Modal.submit w) = Modal.ticket w /\
  priority (Modal.form (Modal.submit w)) = priority (Modal.form w) /\
  reason (Modal.form (Modal.submit w)) = reason (Modal.form w) /\
  agentName (Modal.form (Modal.submit w)) = agentName (Modal.form w).
Proof.
  intros H. set (st := Modal.form w) in *.
  assert (R : (validate st).2 = false).
  { apply not_true_iff_false. rewrite validate_true_iff. intros (V1 & V2 & V3).
    rewrite unit_interval_iff_percent_in_range, V1 in H.
    apply Nat.ltb_ge in V2, V3. destruct H as [H|[H|H]]; [discriminate H|lia|lia]. }
  unfold Modal.submit. fold st. rewrite (handleSubmit_rejected st R). cbn.
  rewrite app_nil_r. repeat split.
Qed.

(** A priority of 1.5 on the unit scale, that is 150 percent, is rejected. *)
Lemma C4_rejected_override_is_not_submitted_witness :
  (handleSubmit (Modal.form Sample.out_of_range_world)).2 = None /\
  Modal.sent (Modal.submit Sample.out_of_range_world) = [] /\
  Modal.ticket (Modal.submit Sample.out_of_range_world) = Sample.ticket None /\
  priority (Modal.form (Modal.submit Sample.out_of_range_world)) = "150" /\
  reason (Modal.form (Modal.submit Sample.out_of_range_world))
    = "Customer escalated by phone" /\
  agentName (Modal.form (Modal.submit Sample.out_of_range_world)) = "Dana".
Proof.
  apply (C4_rejected_override_is_not_submitted Sample.out_of_range_world).
  left. vm_compute. reflexivity.
Defined.

(** A priority of -0.1 on the unit scale, an empty reason and an empty agent
    name are rejected as well, and a valid request is sent. *)
Example rejected_and_accepted_requests :
  Modal.sent (Modal.submit (Sample.world "-10" "Customer escalated by phone" "Dana")) = [] /\
  Modal.sent (Modal.submit (Sample.world "90" "" "Dana")) = [] /\
  Modal.sent (Modal.submit (Sample.world "90" "Customer escalated by phone" "  ")) = [] /\
  Modal.sent (Modal.submit (Sample.world "abc" "Customer escalated by phone" "Dana")) = [] /\
  Modal.sent (Modal.submit (Sample.world "90" " Customer escalated by phone " "Dana"))
  = [ Modal.overridePriority "TKT-1001"
        {| Modal.override_priority := Fin (90 / 100);
           Modal.override_reason := "Customer escalated by phone";
           Modal.override_by := "Dana" |} ].
Proof. vm_compute. repeat split. Qed.

(** C9: whenever validation succeeds, the form submits a payload whose
    priority is the parsed percent input divided by 100 and lies in [0, 1],
    whose reason is the trimmed input and has at least 5 characters, and
    whose agent is the trimmed agent name and has at least 2 characters. *)
Theorem C9_submitted_payload_meets_preconditions (st : State) :
  (validate st).2 = true ->
  exists (data : Payload) (q : Q),
    (handleSubmit st).2 = Some data /\
    data_priority data = div (parseFloat (priority st)) (of_Z 100) /\
    data_priority data = Fin q /\ 0 <= q <= 1 /\
    data_reason data = Str.trim (reason st) /\
    (5 <= String.length (data_reason data))%nat /\
    data_by data = Str.trim (agentName st) /\
    (2 <= String.length (data_by data))%nat.
Proof.
  intros V. rewrite (handleSubmit_accepted st V); cbn [snd].
  apply validate_true_iff in V. destruct V as (V1 & V2 & V3).
  apply Nat.ltb_ge in V2, V3.
  pose proof (unit_interval_iff_percent_in_range (parseFloat (priority st))) as U.
  rewrite V1 in U. cbn [negb] in U. apply andb_true_iff in U.
  destruct (div (parseFloat (priority st)) (of_Z 100)) as [| | |q] eqn:E;
    try (destruct U as [U1 U2]; discriminate).
  eexists _, q. cbn.
  destruct U as [U1 U2]. apply le_Fin in U1, U2.
  repeat split; assumption.
Qed.

Lemma C9_submitted_payload_meets_preconditions_witness :
  exists (data : Payload) (q : Q),
    (handleSubmit Sample.valid_form).2 = Some data /\
    data_priority data = div (parseFloat (priority Sample.valid_form)) (of_Z 100) /\
    data_priority data = Fin q /\ 0 <= q <= 1 /\
    data_reason data = Str.trim (reason Sample.valid_form) /\
    (5 <= String.length (data_reason data))%nat /\
    data_by data = Str.trim (agentName Sample.valid_form) /\
    (2 <= String.length (data_by data))%nat.
Proof.
  apply (C9_submitted_payload_meets_preconditions Sample.valid_form).
  vm_compute. reflexivity.
Defined.

End OverrideClaims.

(** ** What the card and the modal display *)

Section Display.
Import Js Builtin View Model Components.
Local Open Scope Q_scope.

(** C5: the badge of the card and of the detail modal is built from
    [priority_band] and [priority_score] alone: it shows the band and the
    percentage of the computed score, and stays the same whatever the
    override state of the ticket is; the override appears only as the
    separate MANUAL OVERRIDE marker placed after the unchanged badge, exactly
    when [manual_override] is set, and a change of the override values
    changes nothing on the card. *)
Theorem C5_badge_shows_computed_priority :
  forall (ago : string) (t : Ticket) (o : OverrideState),
    card_badge t
    = PriorityBadge (priority_band t)
        (Number (or_else (priority_score t) (of_Z 0))) md /\
    modal_badge t
    = PriorityBadge (priority_band t) (Number (priority_score t)) lg /\
    texts (card_badge t)
    = [ priority_band t; "(";
        displayScore (Number (or_else (priority_score t) (of_Z 0))); "%)" ] /\
    card_badge (set_override t o) = card_badge t /\
    modal_badge (set_override t o) = modal_badge t /\
    card_badge_row (set_override t o)
    = card_badge t :: (if os_manual_override o then [override_marker] else []) /\
    (os_manual_override o = manual_override t ->
     TicketCard ago (set_override t o) = TicketCard ago t).
Proof.
  intros ago t o. repeat split.
  intros E. unfold TicketCard, card_header, card_badge_row, card_badge,
    card_ai_signals, getCustomerTierBadge, getSLAWarning. cbn. now rewrite E.
Qed.

Lemma C5_badge_shows_computed_priority_witness :
  card_badge (set_override (Sample.ticket None) Sample.no_override)
  = card_badge (Sample.ticket None) /\
  modal_badge (set_override (Sample.ticket None) Sample.no_override)
  = modal_badge (Sample.ticket None) /\
  card_badge_row (set_override (Sample.ticket None) Sample.no_override)
  = [card_badge (Sample.ticket None)] /\
  TicketCard "5 minutes ago" (set_override (Sample.ticket None) Sample.other_override)
  = TicketCard "5 minutes ago" (Sample.ticket None).
Proof.
  split; [|split; [|split]].
  - apply (C5_badge_shows_computed_priority "5 minutes ago" (Sample.ticket None)
             Sample.no_override).
  - apply (C5_badge_shows_computed_priority "5 minutes ago" (Sample.ticket None)
             Sample.no_override).
  - apply (C5_badge_shows_computed_priority "5 minutes ago" (Sample.ticket None)
             Sample.no_override).
  - apply (C5_badge_shows_computed_priority "5 minutes ago" (Sample.ticket None)
             Sample.other_override).
    reflexivity.
Defined.

(** The ticket of the design document: computed score 0.3 in band P3,
    overridden to 0.9.  The card shows P3 and 30 percent, then the marker. *)
Example overridden_ticket_badge :
  flat_map texts (card_badge_row (Sample.ticket None))
  = ["P3"; "("; "30"; "%)"; "MANUAL OVERRIDE"] /\
  texts (modal_badge (Sample.ticket None)) = ["P3"; "("; "30"; "%)"].
Proof. vm_compute. split; reflexivity. Qed.

(** C10: the priority badge is defined on every input; for a score that is
    not a number, or is NaN, it displays 0, and for a band other than P0, P1,
    P2 and P3 it uses the default style. *)
Theorem C10_badge_total_on_degenerate_input :
  forall (priorityBand : string) (score : value) (size : Size),
    ((forall n, score = Number n -> n = NaN) ->
     displayScore score = "0" /\
     texts (PriorityBadge priorityBand score size) = [priorityBand; "("; "0"; "%)"]) /\
    (priorityBand ∉ ["P0"; "P1"; "P2"; "P3"] ->
     getBadgeClass priorityBand = default_badge_class /\
     classes (PriorityBadge priorityBand score size)
     = [ "inline-flex items-center gap-2 rounded-full font-semibold "
           +:+ default_badge_class +:+ " " +:+ sizeClasses size;
         ""; "opacity-75" ]).
Proof.
  intros band score size. split.
  - intros H.
    assert (D : displayScore score = "0").
    { destruct score as [| |b|n|s]; try reflexivity.
      rewrite (H n eq_refl). reflexivity. }
    split; [exact D|]. cbn. now rewrite D.
  - intros H.
    assert (G : getBadgeClass band = default_badge_class).
    { unfold getBadgeClass. skip_literals band H. reflexivity. }
    split; [exact G|]. cbn. now rewrite G.
Qed.

Lemma C10_badge_total_on_degenerate_input_witness :
  (displayScore (Number NaN) = "0" /\
   texts (PriorityBadge "P9" (Number NaN) sm) = ["P9"; "("; "0"; "%)"]) /\
  (getBadgeClass "P9" = default_badge_class /\
   classes (PriorityBadge "P9" (Number NaN) sm)
   = [ "inline-flex items-center gap-2 rounded-full font-semibold "
         +:+ default_badge_class +:+ " " +:+ sizeClasses sm;
       ""; "opacity-75" ]).
Proof.
  destruct (C10_badge_total_on_degenerate_input "P9" (Number NaN) sm) as [A B].
  split.
  - apply A. intros n E. injection E as <-. reflexivity.
  - apply B. intros E. not_in_literal E.
Defined.

(** Values that are not numbers, among them [undefined] and [null], and NaN
    display 0; a valid score displays its percentage. *)
Example displayScore_samples :
  map displayScore
    [Undefined; Null; Bool true; String_ "0.5"; Number NaN; Number (Fin 0.783)]
  = ["0"; "0"; "0"; "0"; "0"; "78"].
Proof. vm_compute. reflexivity. Qed.

End Display.

(** ** Tier badge, SLA warning and the AI analysis block *)

Section CardClaims.
Import Js Builtin View Model Components.
Local Open Scope Q_scope.

Lemma tierMapping_unknown (tier : string) :
  tier ∉ ["enterprise"; "business"; "standard"; "free"] ->
  tierMapping !! tier = None.
Proof.
  intros H. unfold tierMapping.
  rewrite !lookup_insert_ne, lookup_empty by (intros <-; apply H; set_solver).
  reflexivity.
Qed.

Lemma tierMap_unknown (tier : string) :
  tier ∉ ["enterprise"; "business"; "standard"; "free"] ->
  tierMap !! tier = None.
Proof.
  intros H. unfold tierMap.
  rewrite !lookup_insert_ne, lookup_empty by (intros <-; apply H; set_solver).
  reflexivity.
Qed.

(** [tierMapping.standard] is the entry of the standard tier. *)
Example tierMapping_standard :
  tierMapping !! "standard" = Some standard_tier /\
  lookup_tier "standard" = Some standard_tier /\
  lookup_tier "enterprise"
  = Some {| label := "TIER-1";
            color := "bg-purple-100 text-purple-800 border-purple-200" |}.
Proof. vm_compute. repeat split. Qed.

(** C7, as stated, fails: for the unrecognised tier [premium] the detail
    modal does not show the value of the standard tier but the tier itself in
    upper case. *)
Lemma C7_modal_shows_unknown_tier_in_upper_case :
  ("premium" ∉ ["enterprise"; "business"; "standard"; "free"]) /\
  getTierDisplay "standard" = Some "TIER-3" /\
  getTierDisplay "premium" = Some "PREMIUM" /\
  getTierDisplay "premium" <> getTierDisplay "standard".
Proof.
  split; [|vm_compute; repeat split; discriminate].
  intros E. not_in_literal E.
Qed.

(** C7, amended: for every tier that is none of enterprise, business,
    standard and free, and is not the name of a member that the lookup table
    inherits from [Object.prototype], the tier badge of the card is the badge
    of the standard tier, label TIER-3 with the colours of standard, and the
    detail modal displays the tier in upper case; neither fails. *)
Theorem C7_unknown_tier_badge_falls_back_to_standard (t : Ticket) :
  customer_tier t ∉ ["enterprise"; "business"; "standard"; "free"] ->
  customer_tier t ∉ Obj.Object_prototype_keys ->
  lookup_tier (customer_tier t) = lookup_tier "standard" /\
  getCustomerTierBadge t
  = Elem "span"
      "px-2 py-0.5 text-xs font-medium rounded border bg-gray-100 text-gray-800 border-gray-200"
      [Text "TIER-3"] /\
  getTierDisplay (customer_tier t) = Some (Str.toUpperCase (customer_tier t)).
Proof.
  intros K P.
  assert (L : lookup_tier (customer_tier t) = Some standard_tier).
  { unfold lookup_tier, Obj.get. rewrite (tierMapping_unknown _ K).
    rewrite bool_decide_eq_false_2 by exact P. reflexivity. }
  split; [rewrite L; reflexivity|]. split.
  - unfold getCustomerTierBadge. rewrite L. reflexivity.
  - unfold getTierDisplay, Obj.get. rewrite (tierMap_unknown _ K).
    rewrite bool_decide_eq_false_2 by exact P. reflexivity.
Qed.

Lemma C7_unknown_tier_badge_falls_back_to_standard_witness :
  lookup_tier "premium" = lookup_tier "standard" /\
  getCustomerTierBadge Sample.premium_ticket
  = Elem "span"
      "px-2 py-0.5 text-xs font-medium rounded border bg-gray-100 text-gray-800 border-gray-200"
      [Text "TIER-3"] /\
  getTierDisplay "premium" = Some (Str.toUpperCase "premium").
Proof.
  apply (C7_unknown_tier_badge_falls_back_to_standard Sample.premium_ticket);
    cbn; intros E; not_in_literal E.
Defined.

(** A tier named like a member of [Object.prototype] finds that member in
    the table: the card splices [undefined] into the class name and shows no
    label, and the modal gets no string to display. *)
Example tier_named_like_inherited_member :
  getCustomerTierBadge (Sample.ticket_of "constructor" (Fin 24) None)
  = Elem "span" "px-2 py-0.5 text-xs font-medium rounded border undefined" [] /\
  getTierDisplay "constructor" = None.
Proof. vm_compute. split; reflexivity. Qed.

(** The scoring engine gives an unrecognised tier the weight of standard. *)
Lemma tier_score_unknown (tier : string) :
  tier ∉ ["enterprise"; "business"; "standard"; "free"] ->
  Engine.tier_score tier = Engine.tier_score "standard".
Proof.
  intros H. unfold Engine.tier_score. skip_literals tier H. reflexivity.
Qed.

(** C6, as stated, fails: on a ticket whose signal carries an error flag the
    card shows no "analysis unavailable" text at all. *)
Lemma C6_errored_signal_shows_no_unavailable_text :
  llm_signals Sample.errored_ticket = Some Sample.errored_signals /\
  truthy_field (error Sample.errored_signals) = true /\
  urgency Sample.errored_signals = None /\
  texts (TicketCard "5 minutes ago" Sample.errored_ticket)
  = [ "P3"; "("; "30"; "%)"; "MANUAL OVERRIDE"; "TKT-1001";
      "Checkout fails with error 500"; "TIER-2"; "SLA: "; "24.0"; "h";
      "5 minutes ago" ] /\
  ~ In unavailable_message (texts (TicketCard "5 minutes ago" Sample.errored_ticket)).
Proof.
  repeat split. vm_compute. intuition discriminate.
Qed.

(** C6, amended: for a null (or empty) urgency the urgency indicator renders
    the message "AI analysis unavailable" and nothing else, whatever the
    confidence; on a card whose signal is present, carries no error flag and
    has a null urgency, the AI-analysis block shows that message and no
    urgency value; and when the signal is absent or carries an error flag the
    AI-analysis block is suppressed entirely, so that the card shows neither
    an urgency value nor the message. *)
Theorem C6_unavailable_message_or_suppressed_block :
  (forall confidence : option number,
     UrgencyIndicator None confidence
     = Some (Elem "span" "text-xs text-gray-500 italic" [Text unavailable_message]) /\
     UrgencyIndicator (Some "") confidence = UrgencyIndicator None confidence) /\
  (forall (t : Ticket) (sig : LlmSignals),
     llm_signals t = Some sig -> truthy_field (error sig) = false ->
     truthy_field (urgency sig) = false ->
     flat_map texts (card_ai_signals t)
     = "🤖 AI Analysis"
       :: flat_map texts
            (when (truthy_field (summary sig))
               (Elem "p" "text-sm text-gray-700 mb-2 italic"
                  [Text Str.quote; Text (default "" (summary sig)); Text Str.quote]))
       ++ [unavailable_message]) /\
  (forall (t : Ticket) (sig : LlmSignals),
     llm_signals t = Some sig -> truthy_field (error sig) = true ->
     card_ai_signals t = []) /\
  (forall t : Ticket, llm_signals t = None -> card_ai_signals t = []).
Proof.
  split; [intros c; split; reflexivity|]. split; [|split].
  - intros t sig E H U. unfold card_ai_signals, shows_ai_block. rewrite E, H.
    cbn [negb when flat_map]. rewrite app_nil_r. unfold card_ai_block.
    assert (I : UrgencyIndicator (urgency sig) (confidence sig)
                = Some (Elem "span" "text-xs text-gray-500 italic"
                          [Text unavailable_message])).
    { destruct (urgency sig) as [[|c r]|]; [reflexivity|discriminate U|reflexivity]. }
    rewrite I. cbn [SentimentIndicator child].
    destruct (truthy_field (summary sig)); reflexivity.
  - intros t sig E H. unfold card_ai_signals, shows_ai_block. rewrite E, H.
    reflexivity.
  - intros t E. unfold card_ai_signals. rewrite E. reflexivity.
Qed.

Lemma C6_unavailable_message_or_suppressed_block_witness :
  flat_map texts
    (card_ai_signals (Sample.ticket (Some Sample.signals_without_urgency)))
  = ["🤖 AI Analysis"; unavailable_message] /\
  card_ai_signals Sample.errored_ticket = [] /\
  card_ai_signals (Sample.ticket None) = [].
Proof.
  destruct C6_unavailable_message_or_suppressed_block as (_ & A & B & C).
  split; [|split].
  - apply (A (Sample.ticket (Some Sample.signals_without_urgency))
             Sample.signals_without_urgency); reflexivity.
  - apply (B Sample.errored_ticket Sample.errored_signals); reflexivity.
  - apply (C (Sample.ticket None)); reflexivity.
Defined.

Lemma sla_risk_24 (h : Q) :
  (h < 4 <-> 5 # 6 < Engine.sla_risk 24 h) /\
  (h < 4 -> 0.83 <= Engine.sla_risk 24 h).
Proof.
  unfold Engine.sla_risk, Engine.clamp, Qdiv.
  change (/ 24) with (1 # 24).
  destruct (Qle_bool (1 - h * (1 # 24)) 0) eqn:A.
  { apply Qle_bool_iff in A. repeat split; intros; lra. }
  apply Qle_bool_false in A.
  destruct (Qle_bool 1 (1 - h * (1 # 24))) eqn:B.
  { apply Qle_bool_iff in B. repeat split; intros; lra. }
  apply Qle_bool_false in B. repeat split; intros; lra.
Qed.

(** C8: the card renders the high-risk SLA warning exactly when
    [sla_hours_remaining] is below 4; with a reference window of 24 hours
    that is exactly when the clamped risk formula exceeds its value at 4
    hours, 5/6 or about 0.83, so that every ticket with the warning has a
    risk of at least 0.83. *)
Theorem C8_sla_warning_below_four_hours :
  (forall t : Ticket,
     In sla_warning_class (classes (getSLAWarning t))
     <-> lt (sla_hours_remaining t) (of_Z 4) = true) /\
  (forall h : Q, lt (Fin h) (of_Z 4) = true <-> h < 4) /\
  (forall h : Q, h < 4 <-> 5 # 6 < Engine.sla_risk 24 h) /\
  (forall h : Q, h < 4 -> 0.83 <= Engine.sla_risk 24 h) /\
  Engine.sla_risk 24 4 == 5 # 6 /\
  Qabs ((5 # 6) - 0.83) <= 0.005.
Proof.
  split; [|split; [|split; [|split; [|split]]]].
  - intros t. unfold getSLAWarning.
    destruct (lt (sla_hours_remaining t) (of_Z 4)); cbn.
    + split; [reflexivity | intros _; left; reflexivity].
    + split; [intros [E|[]]; discriminate E | discriminate].
  - intros h. apply lt_Fin.
  - intros h. apply sla_risk_24.
  - intros h. apply sla_risk_24.
  - reflexivity.
  - intros H; vm_compute in H; discriminate H.
Qed.

Lemma C8_sla_warning_below_four_hours_witness :
  In sla_warning_class
    (classes (getSLAWarning (Sample.ticket_of "free" (Fin 3.9) None))) /\
  0.83 <= Engine.sla_risk 24 3.9 /\
  ~ In sla_warning_class
      (classes (getSLAWarning (Sample.ticket_of "free" (Fin 4) None))).
Proof.
  destruct C8_sla_warning_below_four_hours as (W & _ & _ & R & _).
  split; [|split].
  - apply (W (Sample.ticket_of "free" (Fin 3.9) None)). reflexivity.
  - apply (R 3.9). reflexivity.
  - intros H. apply (W (Sample.ticket_of "free" (Fin 4) None)) in H.
    discriminate H.
Defined.

(** The warning at 3.9 hours and none at 4.0 hours or without a number. *)
Example sla_warning_samples :
  map (fun sla => texts (getSLAWarning (Sample.ticket_of "free" sla None)))
    [Fin 3.9; Fin 4; Fin (-2); NaN]
  = [ ["SLA: "; "3.9"; "h remaining"]; ["SLA: "; "4.0"; "h"];
      ["SLA: "; "-2.0"; "h remaining"]; ["SLA: "; "NaN"; "h"] ].
Proof. vm_compute. reflexivity. Qed.

End CardClaims.

(** ** Printing and reading decimal digits *)

Section DigitFacts.
Import Js Builtin Digits.

Lemma digit_of_ascii (d : N) :
  (d < 10)%N -> Str.digit_of (ascii_of_N (48 + d)) = Some (Z.of_N d).
Proof.
  intros H.
  assert (C : (d = 0 \/ d = 1 \/ d = 2 \/ d = 3 \/ d = 4 \/ d = 5 \/ d = 6
               \/ d = 7 \/ d = 8 \/ d = 9)%N) by lia.
  repeat (destruct C as [->|C]; [reflexivity|]). now subst.
Qed.

Lemma digits_of_nat_spec (fuel : nat) :
  forall (n : N) (acc : string),
    (n < 10 ^ N.of_nat (S fuel))%N -> all_digits acc = true ->
    all_digits (Str.digits_of_nat fuel n acc) = true /\
    val (Str.digits_of_nat fuel n acc)
    = (Z.of_N n * 10 ^ Z.of_nat (String.length acc) + val acc)%Z /\
    Str.digits_of_nat fuel n acc <> "".
Proof.
  induction fuel as [|fuel IH]; intros n acc Hn Hacc.
  - cbn [Str.digits_of_nat]. change (10 ^ N.of_nat 1)%N with 10%N in Hn.
    rewrite N.mod_small by exact Hn.
    cbn [all_digits val]. rewrite (digit_of_ascii n Hn). cbn [default].
    repeat split; [exact Hacc | discriminate].
  - cbn [Str.digits_of_nat].
    assert (Hm : (n mod 10 < 10)%N) by (apply N.mod_lt; discriminate).
    destruct (N.eqb_spec (n / 10) 0) as [E|E].
    + assert (n mod 10 = n)%N as -> .
      { pose proof (N.div_mod n 10 ltac:(discriminate)). lia. }
      assert (Hn' : (n < 10)%N).
      { pose proof (N.div_mod n 10 ltac:(discriminate)). lia. }
      cbn [all_digits val]. rewrite (digit_of_ascii n Hn'). cbn [default].
      repeat split; [exact Hacc | discriminate].
    + destruct (IH (n / 10)%N (String (ascii_of_N (48 + n mod 10)) acc)) as (A & B & C).
      * apply N.Div0.div_lt_upper_bound.
        rewrite <- N.pow_succ_r'. now rewrite <- Nnat.Nat2N.inj_succ.
      * cbn [all_digits]. now rewrite (digit_of_ascii _ Hm).
      * split; [exact A|]. split; [|exact C].
        rewrite B. cbn [val String.length]. rewrite (digit_of_ascii _ Hm). cbn [default].
        rewrite Nat2Z.inj_succ, Z.pow_succ_r by lia.
        pose proof (N.div_mod n 10 ltac:(discriminate)) as D.
        assert (Z.of_N n = 10 * Z.of_N (n / 10) + Z.of_N (n mod 10))%Z as -> by lia.
        unfold id. ring.
Qed.

Lemma of_N_spec (n : N) :
  all_digits (Str.of_N n) = true /\ val (Str.of_N n) = Z.of_N n /\ Str.of_N n <> "".
Proof.
  unfold Str.of_N.
  destruct (digits_of_nat_spec (N.to_nat (N.log2 n)) n "") as (A & B & C).
  - rewrite Nnat.Nat2N.inj_succ, Nnat.N2Nat.id.
    destruct (N.eq_dec n 0%N) as [->|H0]; [reflexivity|].
    pose proof (N.log2_spec n ltac:(lia)) as [_ L].
    eapply N.lt_le_trans; [exact L|].
    apply N.pow_le_mono_l. lia.
  - reflexivity.
  - split; [exact A|]. split; [|exact C]. rewrite B. cbn. lia.
Qed.



End DigitFacts.

(** ** The override form: opening, errors and preview *)

Section OverrideFormFacts.
Import Js Builtin Digits OverrideForm.
Local Open Scope Q_scope.

Lemma toFixed0_Fin (q : Q) :
  toFixed 0 (Fin q)
  = (if lt (Fin q) (Fin 0) then "-" else "")
    +:+ Str.of_N (Z.to_N (Qfloor (Qabs q + (1 # 2)))).
Proof.
  cbn [toFixed]. unfold toFixed_fin.
  assert (E : Qfloor (Qabs q * inject_Z (10 ^ Z.of_nat 0) + (1 # 2))
              = Qfloor (Qabs q + (1 # 2))).
  { apply Qfloor_comp. change (inject_Z (10 ^ Z.of_nat 0)) with 1. ring. }
  rewrite E. destruct (of_N_spec (Z.to_N (Qfloor (Qabs q + (1 # 2))))) as (_ & _ & N).
  destruct (Str.of_N _) as [|c r]; [contradiction|]. reflexivity.
Qed.






(** The priority 0.783 opens the form on 78, and 0.005 on 1. *)
Example form_opens_on_78 :
  parseFloat (priority (init (Fin 0.783))) = Fin (inject_Z 78) /\
  priority (init (Fin 0.005)) = "1".
Proof. vm_compute. split; reflexivity. Qed.

End OverrideFormFacts.


Section FormErrors.
Import Js Builtin OverrideForm.
Local Open Scope Q_scope.

(** X2: after [validate] the error map of the override form names exactly
    the violated constraints: it has an entry for the priority, the reason
    or the agent name exactly when that input fails its test, it has no
    other entry, and validating again changes nothing, so errors of an
    earlier attempt do not linger. *)
Theorem override_errors_name_the_violations (st : State) :
  (is_Some (errors (validate st).1 !! "priority") <->
   isNaN (parseFloat (priority st)) || lt (parseFloat (priority st)) (of_Z 0)
     || gt (parseFloat (priority st)) (of_Z 100) = true) /\
  (is_Some (errors (validate st).1 !! "reason") <->
   (String.length (Str.trim (reason st)) < 5)%nat) /\
  (is_Some (errors (validate st).1 !! "agentName") <->
   (String.length (Str.trim (agentName st)) < 2)%nat) /\
  (forall k : string,
     k ∉ ["priority"; "reason"; "agentName"] ->
     errors (validate st).1 !! k = None) /\
  errors (validate st).1 = errors (validate (validate st).1).1.
Proof.
  unfold validate, newErrors; cbn [fst errors priority reason agentName].
  destruct (isNaN _ || _ || _);
    destruct (Nat.ltb_spec (String.length (Str.trim (reason st))) 5);
    destruct (Nat.ltb_spec (String.length (Str.trim (agentName st))) 2).
  all: repeat split; intros; simplify_map_eq;
    try match goal with H : is_Some None |- _ => destruct H as [? H]; discriminate H end;
    try (eexists; reflexivity); try lia; try reflexivity; try discriminate.
  all: try (rewrite !lookup_insert_ne, ?lookup_empty; [reflexivity|..];
            intros <-; match goal with H : _ ∉ _ |- _ => apply H; set_solver end).
Qed.



End FormErrors.

(** ** The create form *)

Section CreateForm.
Import Js Builtin CreateTicketForm.
Local Open Scope Q_scope.

Lemma create_no_keys_insert {A : Type} (k : string) (a : A) (m : gmap string A) :
  Obj.no_keys (<[k := a]> m) = false.
Proof.
  apply not_true_iff_false. unfold Obj.no_keys. rewrite Nat.eqb_eq.
  rewrite map_size_empty_iff. apply insert_non_empty.
Qed.

Lemma positive_iff (n : number) :
  isNaN n || le n (of_Z 0) = false <-> gt n (of_Z 0) = true.
Proof.
  destruct n as [| | |q]; cbn [isNaN orb]; unfold le, gt, Js.compare, of_Z;
    try destruct (Qcompare _ _); split; congruence.
Qed.

(** [validate] of the create form accepts exactly the states that pass its
    three tests. *)
Lemma create_validate_true_iff (st : State) :
  (validate st).2 = true <->
  (10 <= String.length (Str.trim (text st)) <= 5000)%nat /\
  gt (parseFloat (slaHours st)) (of_Z 0) = true.
Proof.
  rewrite <- positive_iff. unfold validate, newErrors; cbn [snd].
  destruct (Nat.ltb_spec (String.length (Str.trim (text st))) 10);
    destruct (Nat.ltb_spec 5000 (String.length (Str.trim (text st))));
    destruct (isNaN _ || _);
    rewrite ?create_no_keys_insert; split; try discriminate; try reflexivity;
    try (intros [? ?]; (lia || discriminate)).
  intros _. split; [lia | reflexivity].
Qed.

Lemma optional_spec (s : string) :
  optional s = None /\ Str.trim s = "" \/
  optional s = Some (Str.trim s) /\ Str.trim s <> "".
Proof.
  unfold optional. destruct (Str.trim s); [left | right]; split;
    try reflexivity; discriminate.
Qed.

(** What an accepted create form submits. *)
Lemma create_accepted_payload (st : State) (data : Payload) :
  (handleSubmit st).2 = Some data ->
  data_text data = Str.trim (text st) /\
  (10 <= String.length (data_text data) <= 5000)%nat /\
  data_sla_hours_remaining data = parseFloat (slaHours st) /\
  gt (data_sla_hours_remaining data) (of_Z 0) = true /\
  data_customer_tier data = customerTier st.
Proof.
  pose proof (create_validate_true_iff st) as V.
  unfold handleSubmit. destruct (validate st) as [st' ok] eqn:E.
  assert (F : st' = (validate st).1) by now rewrite E.
  cbn [fst snd] in V. destruct ok; cbn [negb fst snd]; [|discriminate].
  destruct V as [V _]. specialize (V eq_refl).
  intros [= <-]. subst st'. cbn. repeat split; apply V.
Qed.

(** X4: the create form calls [onSubmit] exactly when the trimmed
    description has between 10 and 5000 characters, both bounds included,
    and the SLA field parses to a number above zero; what it submits is the
    trimmed description, the tier as selected, the parsed SLA, and optional
    customer fields that are never the empty string; the handler leaves the
    inputs as typed. *)
Theorem create_form_submits_only_valid_tickets (st : State) :
  ((handleSubmit st).2 <> None <->
   (10 <= String.length (Str.trim (text st)) <= 5000)%nat /\
   gt (parseFloat (slaHours st)) (of_Z 0) = true) /\
  (forall data : Payload,
     (handleSubmit st).2 = Some data ->
     data_text data = Str.trim (text st) /\
     (10 <= String.length (data_text data) <= 5000)%nat /\
     data_customer_tier data = customerTier st /\
     data_sla_hours_remaining data = parseFloat (slaHours st) /\
     gt (data_sla_hours_remaining data) (of_Z 0) = true /\
     data_customer_name data <> Some "" /\
     data_customer_email data <> Some "" /\
     data_customer_account_id data <> Some "") /\
  text (handleSubmit st).1 = text st /\
  slaHours (handleSubmit st).1 = slaHours st /\
  customerTier (handleSubmit st).1 = customerTier st.
Proof.
  pose proof (create_validate_true_iff st) as V.
  unfold handleSubmit. destruct (validate st) as [st' ok] eqn:E.
  assert (F : st' = (validate st).1) by now rewrite E.
  cbn [fst snd] in V. destruct ok; cbn [negb fst snd].
  - destruct V as [V _]. specialize (V eq_refl). split; [|split].
    + split; [intros _; exact V | discriminate].
    + intros data [= <-]. subst st'. cbn.
      repeat split; try apply V;
        match goal with |- optional ?s <> _ =>
          destruct (optional_spec s) as [[-> _]|[-> N]]; congruence end.
    + subst st'. repeat split.
  - split; [|split].
    + split; [congruence|]. intros H. apply V in H. discriminate H.
    + intros data [=].
    + subst st'. repeat split.
Qed.

(** X5: after [validate] the error map of the create form tells the
    violations apart: the description entry is the "at least 10" message
    exactly when the trimmed text is shorter than 10, the "less than 5000"
    message exactly when it is longer than 5000, the SLA entry is present
    exactly when the SLA is not a number above zero, and there is no other
    entry. *)
Theorem create_errors_name_the_violations (st : State) :
  (errors (validate st).1 !! "text" = Some too_short <->
   (String.length (Str.trim (text st)) < 10)%nat) /\
  (errors (validate st).1 !! "text" = Some too_long <->
   (5000 < String.length (Str.trim (text st)))%nat) /\
  (is_Some (errors (validate st).1 !! "sla") <->
   gt (parseFloat (slaHours st)) (of_Z 0) = false) /\
  (forall k : string, k ∉ ["text"; "sla"] -> errors (validate st).1 !! k = None).
Proof.
  assert (P : gt (parseFloat (slaHours st)) (of_Z 0) = false <->
              isNaN (parseFloat (slaHours st))
                || le (parseFloat (slaHours st)) (of_Z 0) = true).
  { rewrite <- not_true_iff_false, <- positive_iff, not_false_iff_true. reflexivity. }
  rewrite P. clear P.
  unfold validate, newErrors; cbn [fst errors].
  destruct (Nat.ltb_spec (String.length (Str.trim (text st))) 10);
    destruct (Nat.ltb_spec 5000 (String.length (Str.trim (text st))));
    destruct (isNaN _ || _); try lia.
  all: repeat split; intros; simplify_map_eq;
    try match goal with H : is_Some None |- _ => destruct H as [? H]; discriminate H end;
    try (eexists; reflexivity); try lia; try reflexivity; try discriminate.
  all: try (rewrite ?lookup_insert_ne, ?lookup_empty; [reflexivity|..];
            intros <-; match goal with H : _ ∉ _ |- _ => apply H; set_solver end).
Qed.

(** An SLA of [Infinity] passes the test of the create form, and the form
    as opened, with its empty description, does not. *)
Example create_form_samples :
  (handleSubmit Fixture.create_form).2 = Some Fixture.create_payload /\
  gt (parseFloat "Infinity") (of_Z 0) = true /\
  (handleSubmit init).2 = None.
Proof. vm_compute. repeat split. Qed.

End CreateForm.

(** ** Handlers of the detail modal *)

Section HandlerFacts.
Import Js Builtin Model Handlers.
Local Open Scope Q_scope.

(** The payload of an accepted override form. *)
Lemma accepted_payload (st : OverrideForm.State) :
  (OverrideForm.validate st).2 = true ->
  exists q : Q,
    (OverrideForm.handleSubmit st).2
    = Some {| OverrideForm.data_priority := Fin q;
              OverrideForm.data_reason := Str.trim (OverrideForm.reason st);
              OverrideForm.data_by := Str.trim (OverrideForm.agentName st) |} /\
    0 <= q <= 1 /\
    (5 <= String.length (Str.trim (OverrideForm.reason st)))%nat /\
    (2 <= String.length (Str.trim (OverrideForm.agentName st)))%nat.
Proof.
  intros V. rewrite (handleSubmit_accepted st V); cbn [snd].
  apply validate_true_iff in V. destruct V as (V1 & V2 & V3).
  apply Nat.ltb_ge in V2, V3.
  pose proof (unit_interval_iff_percent_in_range
                (parseFloat (OverrideForm.priority st))) as U.
  rewrite V1 in U. cbn [negb] in U. apply andb_true_iff in U. destruct U as [U1 U2].
  destruct (div (parseFloat (OverrideForm.priority st)) (of_Z 100)) as [| | |q];
    try discriminate.
  apply le_Fin in U1, U2. exists q. repeat split; assumption.
Qed.

(** X6: [handleOverride] sends exactly one request, the override of the
    ticket shown with the priority, reason and agent of the form; whether
    the request succeeds or fails the modal is no longer submitting at the
    end; it leaves override mode and closes exactly when the request
    succeeded, and shows one alert, of success or of failure. *)
Theorem handleOverride_closes_only_on_success
    (ok : bool) (t : Ticket) (data : OverrideForm.Payload) (st : DetailModal.State) :
  calls (DetailModal.handleOverride ok t data)
  = [ overrideTicket
        (Modal.overridePriority (ticket_id t)
           {| Modal.override_priority := OverrideForm.data_priority data;
              Modal.override_reason := OverrideForm.data_reason data;
              Modal.override_by := OverrideForm.data_by data |}) ] /\
  DetailModal.isSubmitting
    (DetailModal.run st (DetailModal.handleOverride ok t data)) = false /\
  DetailModal.isOverrideMode
    (DetailModal.run st (DetailModal.handleOverride ok t data))
  = (if ok then false else DetailModal.isOverrideMode st) /\
  (In OnClose (DetailModal.handleOverride ok t data) <-> ok = true) /\
  alerts (DetailModal.handleOverride ok t data)
  = [ if ok then "Priority override applied successfully!"
      else "Failed to apply override. Please try again." ].
Proof.
  destruct ok; cbn; repeat split; try reflexivity; intuition discriminate.
Qed.

(** X7: [handleRemoveOverride] sends its request only after the
    confirmation: when the dialog is declined nothing is sent, no alert is
    shown and the state is unchanged; when it is confirmed exactly the
    removal for the ticket shown is sent and the modal is no longer
    submitting at the end; the modal closes exactly when the removal was
    confirmed and succeeded. *)
Theorem handleRemoveOverride_needs_confirmation
    (confirmed ok : bool) (t : Ticket) (st : DetailModal.State) :
  calls (DetailModal.handleRemoveOverride confirmed ok t)
  = (if confirmed then [overrideTicket (Modal.removeOverride (ticket_id t))] else []) /\
  (confirmed = false ->
   DetailModal.run st (DetailModal.handleRemoveOverride confirmed ok t) = st /\
   alerts (DetailModal.handleRemoveOverride confirmed ok t) = []) /\
  (confirmed = true ->
   DetailModal.isSubmitting
     (DetailModal.run st (DetailModal.handleRemoveOverride confirmed ok t)) = false /\
   DetailModal.isOverrideMode
     (DetailModal.run st (DetailModal.handleRemoveOverride confirmed ok t))
   = DetailModal.isOverrideMode st) /\
  (In OnClose (DetailModal.handleRemoveOverride confirmed ok t)
   <-> confirmed = true /\ ok = true).
Proof.
  destruct confirmed, ok; cbn; repeat split; try reflexivity;
    intuition discriminate.
Qed.

(** X8: a request the modal sends when "Apply Override" is pressed is the
    only one sent, is an override of the ticket shown, and carries a
    priority in [0, 1], a reason of at least 5 characters and an agent name
    of at least 2 characters. *)
Theorem modal_sends_only_valid_overrides
    (ok : bool) (t : Ticket) (form : OverrideForm.State) (c : call) :
  In c (calls (DetailModal.applyOverride ok t form).2) ->
  calls (DetailModal.applyOverride ok t form).2 = [c] /\
  exists (q : Q) (reason byName : string),
    c = overrideTicket
          (Modal.overridePriority (ticket_id t)
             {| Modal.override_priority := Fin q;
                Modal.override_reason := reason;
                Modal.override_by := byName |}) /\
    0 <= q <= 1 /\
    (5 <= String.length reason)%nat /\ (2 <= String.length byName)%nat.
Proof.
  unfold DetailModal.applyOverride.
  destruct (OverrideForm.handleSubmit form) as [form' data] eqn:E.
  destruct data as [d|]; cbn [snd]; [|intros []].
  assert (V : (OverrideForm.validate form).2 = true).
  { apply handleSubmit_submits_iff. rewrite E. discriminate. }
  pose proof (handleOverride_closes_only_on_success ok t d
                {| DetailModal.isOverrideMode := true; DetailModal.isSubmitting := false |})
    as (C & _).
  destruct (accepted_payload form V) as (q & S & R & Lr & Lb).
  rewrite E in S. cbn [snd] in S. injection S as ->.
  rewrite C. intros [<-|[]]. split; [reflexivity|].
  exists q, (Str.trim (OverrideForm.reason form)),
    (Str.trim (OverrideForm.agentName form)).
  repeat split; try assumption; apply R.
Qed.
Lemma modal_sends_only_valid_overrides_witness :
  calls (DetailModal.applyOverride true (Sample.ticket None) Sample.valid_form).2
  = [Fixture.override_call] /\
  exists (q : Q) (reason byName : string),
    Fixture.override_call
    = overrideTicket
        (Modal.overridePriority (ticket_id (Sample.ticket None))
           {| Modal.override_priority := Fin q;
              Modal.override_reason := reason;
              Modal.override_by := byName |}) /\
    0 <= q <= 1 /\
    (5 <= String.length reason)%nat /\ (2 <= String.length byName)%nat.
Proof.
  apply (modal_sends_only_valid_overrides true (Sample.ticket None)
           Sample.valid_form Fixture.override_call).
  vm_compute. left. reflexivity.
Defined.

End HandlerFacts.

(** ** Handlers and stats bar of the application *)

Section AppFacts.
Import Js Builtin Model Handlers App.
Local Open Scope Q_scope.

(** X9: [loadTickets] sends one queue request and always ends with
    [loading] off; on success the tickets are the ones received, the error
    is cleared and the main screen shows; on failure the tickets already
    held are kept but the error screen shows instead of them; and a
    successful load after a failed one shows the main screen with the new
    tickets. *)
Theorem loadTickets_outcome (st : State) (outcome : option (list Ticket)) :
  calls (loadTickets outcome) = [getQueue] /\
  loading (run st (loadTickets outcome)) = false /\
  tickets (run st (loadTickets outcome)) = default (tickets st) outcome /\
  error (run st (loadTickets outcome))
  = match outcome with Some _ => None | None => Some load_failed end /\
  screen (run st (loadTickets outcome))
  = match outcome with Some _ => MainScreen | None => ErrorScreen load_failed end /\
  (forall data : list Ticket,
     tickets (run (run st (loadTickets None)) (loadTickets (Some data))) = data /\
     screen (run (run st (loadTickets None)) (loadTickets (Some data))) = MainScreen).
Proof.
  destruct outcome; repeat split.
Qed.

(** X10: [handleCreateTicket] sends the creation request, followed by a
    reload of the queue exactly when the creation succeeded; it always ends
    with [isSubmitting] off; the create modal is closed on success and left
    as it is on failure, where one alert is shown and the tickets are
    unchanged. *)
Theorem handleCreateTicket_outcome
    (st : State) (created : bool) (reload : option (list Ticket))
    (data : CreateTicketForm.Payload) :
  calls (handleCreateTicket created reload data)
  = createTicket data :: (if created then [getQueue] else []) /\
  isSubmitting (run st (handleCreateTicket created reload data)) = false /\
  isCreateModalOpen (run st (handleCreateTicket created reload data))
  = (if created then false else isCreateModalOpen st) /\
  tickets (run st (handleCreateTicket created reload data))
  = (if created then default (tickets st) reload else tickets st) /\
  alerts (handleCreateTicket created reload data)
  = (if created then [] else ["Failed to create ticket. Please try again."]).
Proof.
  destruct created, reload; repeat split.
Qed.

(** X11: [handleReset] sends nothing and changes nothing when the
    confirmation is declined; once confirmed it sends the reset, reloads the
    queue exactly when the reset succeeded, and ends with [loading] off. *)
Theorem handleReset_needs_confirmation
    (st : State) (confirmed reset_ok : bool) (reload : option (list Ticket)) :
  calls (handleReset confirmed reset_ok reload)
  = (if confirmed
     then resetSystem :: (if reset_ok then [getQueue] else [])
     else []) /\
  (confirmed = false -> run st (handleReset confirmed reset_ok reload) = st) /\
  (confirmed = true ->
   loading (run st (handleReset confirmed reset_ok reload)) = false /\
   tickets (run st (handleReset confirmed reset_ok reload))
   = (if reset_ok then default (tickets st) reload else tickets st)).
Proof.
  destruct confirmed, reset_ok, reload; repeat split; discriminate.
Qed.

(** X12: a creation request sent when "Create Ticket" is pressed carries
    the trimmed description of the form, of 10 to 5000 characters, an SLA
    above zero and the tier selected, and is the first of at most two
    requests, the second being the reload of the queue. *)
Theorem app_creates_only_valid_tickets
    (created : bool) (reload : option (list Ticket))
    (form : CreateTicketForm.State) (data : CreateTicketForm.Payload) :
  In (createTicket data) (calls (createFromForm created reload form).2) ->
  calls (createFromForm created reload form).2
  = createTicket data :: (if created then [getQueue] else []) /\
  CreateTicketForm.data_text data = Str.trim (CreateTicketForm.text form) /\
  (10 <= String.length (CreateTicketForm.data_text data) <= 5000)%nat /\
  gt (CreateTicketForm.data_sla_hours_remaining data) (of_Z 0) = true /\
  CreateTicketForm.data_customer_tier data = CreateTicketForm.customerTier form.
Proof.
  unfold createFromForm.
  destruct (CreateTicketForm.handleSubmit form) as [form' d] eqn:E.
  destruct d as [d|]; cbn [snd]; [|intros []].
  assert (C : calls (handleCreateTicket created reload d)
              = createTicket d :: (if created then [getQueue] else [])).
  { destruct created, reload; reflexivity. }
  rewrite C. intros H.
  assert (D : data = d).
  { destruct H as [H|H]; [congruence|]. destruct created; [|destruct H].
    destruct H as [H|[]]. discriminate H. }
  subst d. split; [reflexivity|].
  destruct (create_accepted_payload form data) as (T & L & S & G & K).
  { rewrite E. reflexivity. }
  repeat split; try assumption; apply L.
Qed.

(** X13: the four boxes of the stats bar count every ticket at most once:
    the four counts and the number of tickets whose band is none of P0, P1,
    P2 and P3 add up to the number of tickets, so a ticket with another band
    is listed but counted in no box. *)
Theorem band_counts_partition (ts : list Ticket) :
  (count "P0" ts + count "P1" ts + count "P2" ts + count "P3" ts
   + length (List.filter (fun t => negb (known_band t)) ts) = length ts)%nat.
Proof.
  unfold count, known_band. induction ts as [|t ts IH]; [reflexivity|].
  cbn [List.filter]. cbv beta.
  destruct (String.eqb_spec (priority_band t) "P0") as [E|_].
  { rewrite E. cbn. lia. }
  destruct (String.eqb_spec (priority_band t) "P1") as [E|_];
    [rewrite ?E; cbn; lia|].
  destruct (String.eqb_spec (priority_band t) "P2") as [E|_];
    [rewrite ?E; cbn; lia|].
  destruct (String.eqb_spec (priority_band t) "P3") as [E|_];
    [rewrite ?E; cbn; lia|].
  cbn. lia.
Qed.
Lemma app_creates_only_valid_tickets_witness :
  calls (createFromForm true None Fixture.create_form).2
  = [createTicket Fixture.create_payload; getQueue] /\
  CreateTicketForm.data_text Fixture.create_payload
  = Str.trim (CreateTicketForm.text Fixture.create_form) /\
  (10 <= String.length (CreateTicketForm.data_text Fixture.create_payload) <= 5000)%nat /\
  gt (CreateTicketForm.data_sla_hours_remaining Fixture.create_payload) (of_Z 0) = true /\
  CreateTicketForm.data_customer_tier Fixture.create_payload
  = CreateTicketForm.customerTier Fixture.create_form.
Proof.
  apply (app_creates_only_valid_tickets true None Fixture.create_form
           Fixture.create_payload).
  vm_compute. left. reflexivity.
Defined.

(** A ticket in band P9 is listed but counted in no box. *)
Example stats_bar_skips_unknown_band :
  flat_map View.texts (stats_bar [Sample.ticket None; Fixture.odd_band_ticket])
  = ["0"; "P0"; "0"; "P1"; "0"; "P2"; "1"; "P3"] /\
  length (ticket_list (fun _ => "now") [Sample.ticket None; Fixture.odd_band_ticket])
  = 2%nat /\
  ticket_list (fun _ => "now") [] = [empty_queue].
Proof. vm_compute. repeat split. Qed.

End AppFacts.

(** ** Analytics *)

Section AnalyticsFacts.
Import Js Builtin Model Analytics.
Local Open Scope Q_scope.




(** X16: with between 0 and all tickets open and an override rate between
    0 and 1, the system health score is a finite number between 0 and
    100. *)
Theorem health_score_is_bounded (stats : Statistics) (t o r : Q) :
  total_tickets stats = Fin t -> open_tickets stats = Fin o ->
  override_rate stats = Fin r ->
  0 <= o <= t -> 0 <= r <= 1 ->
  exists h : Q, health stats = Fin h /\ 0 <= h <= 100.
Proof.
  intros T O R [O0 OT] [R0 R1]. unfold health, totalTickets, or_else, truthy.
  rewrite T, O, R.
  destruct (Qeq_bool t 0) eqn:E; cbn [negb].
  - apply Qeq_bool_eq in E. cbn. eexists. split; [reflexivity|].
    unfold Qdiv. change (/ inject_Z 1) with 1. unfold inject_Z. lra.
  - assert (N : ~ t == 0).
    { intros H. apply Qeq_bool_iff in H. congruence. }
    cbn [div]. rewrite E. cbn. eexists. split; [reflexivity|].
    assert (P : 0 < t) by lra.
    assert (L : 0 <= o / t) by (apply Qle_shift_div_l; lra).
    assert (U : o / t <= 1) by (apply Qle_shift_div_r; lra).
    unfold inject_Z. lra.
Qed.

(** X17: the analytics view labels every tier as the detail modal does,
    and gives a tier that is not in its table and is not named like a member
    of [Object.prototype] the bar colour of the standard tier. *)
Theorem tier_labels_agree (tier : string) :
  tier_name tier = Components.getTierDisplay tier /\
  (tier ∉ ["enterprise"; "business"; "standard"; "free"] ->
   tier ∉ Obj.Object_prototype_keys ->
   tier_color tier = tier_color "standard").
Proof.
  split; [reflexivity|]. intros K P.
  unfold tier_color, Obj.get, tierColors.
  rewrite !lookup_insert_ne, lookup_empty by (intros <-; apply K; set_solver).
  rewrite bool_decide_eq_false_2 by exact P. reflexivity.
Qed.

(** X18: a row of the priority distribution fails to render, reading a
    field of [undefined], exactly for a band that is none of P0, P1, P2 and
    P3 and is not named like a member of [Object.prototype]. *)
Theorem priority_row_fails_on_unknown_band (priority : string) :
  priority_label_class priority = None <->
  (priority ∉ ["P0"; "P1"; "P2"; "P3"]) /\ (priority ∉ Obj.Object_prototype_keys).
Proof.
  unfold priority_label_class, Obj.get, colors.
  destruct (decide (priority ∈ ["P0"; "P1"; "P2"; "P3"])) as [I|I].
  - split; [|intros [N _]; contradiction].
    repeat (apply elem_of_cons in I as [->|I]; [discriminate|]).
    apply elem_of_nil in I. destruct I.
  - rewrite !lookup_insert_ne, lookup_empty by (intros <-; apply I; set_solver).
    destruct (decide (priority ∈ Obj.Object_prototype_keys)) as [P|P].
    + rewrite bool_decide_eq_true_2 by exact P. split; [discriminate|tauto].
    + rewrite bool_decide_eq_false_2 by exact P. tauto.
Qed.
Lemma health_score_is_bounded_witness :
  exists h : Q, health Fixture.stats = Fin h /\ 0 <= h <= 100.
Proof.
  apply (health_score_is_bounded Fixture.stats 12 9 0.25);
    try reflexivity; split; vm_compute; discriminate.
Defined.

(** With no open ticket a count of 2 shows as infinite, a count of 0 as
    0.0. *)
Example percentage_without_open_tickets :
  toFixed 1
    (percentage
       {| total_tickets := Fin 2; open_tickets := Fin 0; in_progress := Fin 0;
          resolved := Fin 2; priority_distribution := []; override_count := Fin 0;
          override_rate := Fin 0; tier_distribution := [] |} (Fin 2))
  = "Infinity" /\
  toFixed 1
    (percentage
       {| total_tickets := Fin 2; open_tickets := Fin 0; in_progress := Fin 0;
          resolved := Fin 2; priority_distribution := []; override_count := Fin 0;
          override_rate := Fin 0; tier_distribution := [] |} (Fin 0))
  = "0.0".
Proof. vm_compute. split; reflexivity. Qed.

End AnalyticsFacts.

(** ** Urgency indicator, badges and bars *)

Section MoreDisplay.
Import Js Builtin View Model Components.
Local Open Scope Q_scope.

Lemma getUrgencyDisplay_None (level : string) :
  getUrgencyDisplay level = None <->
  level ∉ ["critical"; "high"; "medium"; "low"].
Proof.
  unfold getUrgencyDisplay.
  destruct (String.eqb_spec level "critical") as [->|N1];
    [split; [discriminate | intros H; exfalso; apply H; set_solver]|].
  destruct (String.eqb_spec level "high") as [->|N2];
    [split; [discriminate | intros H; exfalso; apply H; set_solver]|].
  destruct (String.eqb_spec level "medium") as [->|N3];
    [split; [discriminate | intros H; exfalso; apply H; set_solver]|].
  destruct (String.eqb_spec level "low") as [->|N4];
    [split; [discriminate | intros H; exfalso; apply H; set_solver]|].
  split; [|reflexivity]. intros _ E.
  repeat (apply elem_of_cons in E as [E|E]; [congruence|]).
  apply elem_of_nil in E. exact E.
Qed.

Lemma toFixed0_starts_with_digit_or_letter (x : number) :
  toFixed 0 x <> unavailable_message.
Proof.
  destruct x as [| | |q]; try discriminate.
  rewrite toFixed0_Fin.
  destruct (of_N_spec (Z.to_N (Qfloor (Qabs q + (1 # 2))))) as (A & _ & N).
  destruct (Str.of_N _) as [|c r]; [contradiction|].
  cbn [Digits.all_digits] in A.
  destruct (lt (Fin q) (Fin 0)); [discriminate|].
  cbn [String.append]. intros [= -> _]. discriminate A.
Qed.

Lemma show_round_is_not_the_message (x : number) :
  show_round x <> unavailable_message.
Proof. apply toFixed0_starts_with_digit_or_letter. Qed.

(** X19: the urgency indicator renders nothing exactly for a non-empty
    urgency that is none of critical, high, medium and low, and its output
    contains the message "AI analysis unavailable" exactly when the urgency
    is null or empty; an unrecognised level therefore shows neither a level
    nor the message. *)
Theorem urgency_indicator_hides_unknown_levels
    (urgency : option string) (confidence : option number) :
  (UrgencyIndicator urgency confidence = None <->
   exists level : string,
     urgency = Some level /\ level <> "" /\
     level ∉ ["critical"; "high"; "medium"; "low"]) /\
  (In unavailable_message
      (flat_map texts (child (UrgencyIndicator urgency confidence)))
   <-> urgency = None \/ urgency = Some "").
Proof.
  destruct urgency as [[|c r]|].
  - split; [split; [discriminate|intros (l & [= <-] & N & _); contradiction]|].
    cbn. split; [auto | intros _; left; reflexivity].
  - destruct (decide (String c r ∈ ["critical"; "high"; "medium"; "low"])) as [K|K].
    + repeat (apply elem_of_cons in K as [K|K];
              [injection K as -> ->; split;
               [split; [discriminate|];
                intros (l & [= <-] & _ & N); exfalso; apply N; set_solver|];
               split; [|intros [H|H]; discriminate H];
               destruct confidence as [x|]; cbn -[show_round]; intros H; exfalso;
               decompose [or] H; try discriminate; try contradiction;
               eapply show_round_is_not_the_message; eassumption|]).
      apply elem_of_nil in K. destruct K.
    + pose proof K as G. apply getUrgencyDisplay_None in G.
      cbn [UrgencyIndicator]. rewrite G. split.
      * split; [|reflexivity]. intros _. exists (String c r).
        split; [reflexivity|]. split; [discriminate|exact K].
      * cbn. split; [intros [] | intros [H|H]; discriminate H].
  - split; [split; [discriminate|intros (l & H & _); discriminate H]|].
    cbn. split; [auto | intros _; left; reflexivity].
Qed.

Lemma toFixed0_zero (q : Q) : q == 0 -> toFixed 0 (Fin (q * 100)) = "0".
Proof.
  intros E. cbn [toFixed]. unfold toFixed_fin.
  assert (F : Qfloor (Qabs (q * 100) * inject_Z (10 ^ Z.of_nat 0) + (1 # 2)) = 0%Z).
  { transitivity (Qfloor (1 # 2)); [|reflexivity]. apply Qfloor_comp.
    rewrite E. reflexivity. }
  rewrite F.
  assert (N : lt (Fin (q * 100)) (Fin 0) = false) by (apply lt_Fin_false; lra).
  rewrite N. reflexivity.
Qed.

(** X20: for every ticket the badge of the card and the badge of the
    detail modal show the same band and the same percentage, although only
    the card replaces a falsy score by 0. *)
Theorem card_and_modal_show_the_same_score (t : Ticket) :
  displayScore (Number (or_else (priority_score t) (of_Z 0)))
  = displayScore (Number (priority_score t)) /\
  flat_map texts [card_badge t] = flat_map texts [modal_badge t].
Proof.
  assert (D : displayScore (Number (or_else (priority_score t) (of_Z 0)))
              = displayScore (Number (priority_score t))).
  { unfold or_else, truthy. destruct (priority_score t) as [| | |q]; try reflexivity.
    destruct (Qeq_bool q 0) eqn:E; [|reflexivity]. apply Qeq_bool_eq in E.
    cbn [negb displayScore isNaN]. rewrite mul_Fin_100, (toFixed0_zero q E).
    reflexivity. }
  split; [exact D|]. unfold card_badge, modal_badge, PriorityBadge.
  cbn [flat_map texts app]. now rewrite D.
Qed.


(** X22: when the final score is zero no contribution bar has a finite
    width: each width is NaN or one of the two infinities. *)
Theorem zero_score_has_no_finite_bar
    (bd : PriorityBreakdownData) (f : Q) (c : Breakdown.Component) :
  final_score bd = Fin f -> f == 0 ->
  In c (Breakdown.components bd) ->
  Bars.contribution_width bd c = NaN \/
  Bars.contribution_width bd c = PosInf \/
  Bars.contribution_width bd c = NegInf.
Proof.
  intros F Z _. unfold Bars.contribution_width. rewrite F.
  assert (B : Qeq_bool f 0 = true) by now apply Qeq_bool_iff.
  destruct (Breakdown.contribution c) as [| | |x]; cbn [div]; rewrite ?B;
    try destruct (Qeq_bool x 0);
    repeat match goal with |- context [is_neg ?a] => destruct (is_neg a) end;
    cbn; auto.
Qed.


Lemma zero_score_has_no_finite_bar_witness :
  Bars.contribution_width Fixture.zero_breakdown Fixture.zero_sla_component = NaN \/
  Bars.contribution_width Fixture.zero_breakdown Fixture.zero_sla_component = PosInf \/
  Bars.contribution_width Fixture.zero_breakdown Fixture.zero_sla_component = NegInf.
Proof.
  apply (zero_score_has_no_finite_bar Fixture.zero_breakdown 0
           Fixture.zero_sla_component);
    [reflexivity | reflexivity | right; left; reflexivity].
Defined.

End MoreDisplay.

(** ** Closing the create modal *)

Section CreateModal.
Import Js Model Handlers App.

(** X23: while a creation request is in flight the create modal cannot be
    dismissed: its [onClose] does nothing in the state the handler is in
    after it sent the request, whereas outside a submission it closes the
    modal and changes nothing else. *)
Theorem create_modal_stays_open_while_submitting
    (st : State) (data : CreateTicketForm.Payload) :
  run (run st [SetIsSubmitting true; Api (createTicket data)])
      (closeCreateModal (run st [SetIsSubmitting true; Api (createTicket data)]))
  = run st [SetIsSubmitting true; Api (createTicket data)] /\
  (isSubmitting st = false ->
   isCreateModalOpen (run st (closeCreateModal st)) = false /\
   tickets (run st (closeCreateModal st)) = tickets st /\
   screen (run st (closeCreateModal st)) = screen st).
Proof.
  split; [reflexivity|]. intros H. unfold closeCreateModal. rewrite H.
  repeat split.
Qed.

End CreateModal.
